(** * WACC step by step: cost of debt, cost of equity and WACC calculators

    A shallow embedding of the calculation core of [CostofDebt.py],
    [CostofEquity.py] and [WACC.py].

    Numbers.  Python's [float] values are idealised as exact rationals
    ([Q]): the operations [+ - * /] and the comparisons are the exact ones,
    and Python's [ZeroDivisionError] on a zero divisor is written out.
    Rounding and overflow are outside this model, and so are [inf] and
    [nan], except in the beta regression: the numpy [float64] values that
    [stats.linregress] returns are a finite rational, an infinity or [nan]
    ([Beta.float64]).  Equality of numbers is [Qeq] ([==]), since [Q] keeps
    fractions unreduced.

    Strings are byte strings read as ASCII: [strip] and [upper] act on the
    ASCII range as [str.strip()] and [str.upper()] do.

    Objects.  Each calculator class is a record whose fields are the
    attributes the modelled methods read or write; an attribute holding
    [None] is [None] here too.  A method is a function from the object (and
    the pending answers of [input()]) to an outcome and the updated object.
    [print] is left out, except where a method's only trace of a branch is
    what it prints. *)

From Stdlib Require Import QArith Qabs Qpower Qround Lqa Lia.
From Stdlib Require Import Ascii String List.
From stdpp Require Import base option list gmap strings pretty.

Local Open Scope Q_scope.
Local Open Scope string_scope.
Local Open Scope list_scope.

(** ** Python values and builtins *)

Module Py.

(** The exceptions the modelled code can raise. *)
Inductive exn :=
  | ZeroDivisionError
  | IndexError
  | KeyError
  | TypeError
  | EOFError.

(** What running a piece of code gives: a value, or an exception that
    propagates to the caller. *)
Inductive outcome (A : Type) :=
  | Return (a : A)
  | Raise (e : exn).
Arguments Return {A} a.
Arguments Raise {A} e.

Definition bind {A B} (m : outcome A) (k : A -> outcome B) : outcome B :=
  match m with
  | Return a => k a
  | Raise e => Raise e
  end.

(** [x > y], [x <= y], [x == y] on numbers. *)
Definition gtb (x y : Q) : bool := negb (Qle_bool x y).
Definition leb (x y : Q) : bool := Qle_bool x y.
Definition eqb (x y : Q) : bool := Qeq_bool x y.

(** [x / y]: float division raises on a zero divisor. *)
Definition div (x y : Q) : outcome Q :=
  if eqb y 0 then Raise ZeroDivisionError else Return (x / y).

(** The builtins whose results the model does not compute: [float(s)] on a
    string ([None] stands for [ValueError]), [str(x)] on a number, and
    [x ** y] on floats, which is positive on a positive base (underflow
    to zero and [OverflowError] are outside the model, as is a negative
    base). *)
Class Builtins := {
  float_of_str : string -> option Q;
  str_of_num : Q -> string;
  pow : Q -> Q -> Q;
  pow_pos : forall b e : Q, 0 < b -> 0 < pow b e
}.

(** [str.isspace] on the ASCII range: codes 9 to 13, 28 to 31 and 32. *)
Definition isspace (c : ascii) : bool :=
  let n := nat_of_ascii c in
  ((9 <=? n)%nat && (n <=? 13)%nat) || ((28 <=? n)%nat && (n <=? 32)%nat).

Fixpoint lstrip (s : string) : string :=
  match s with
  | EmptyString => EmptyString
  | String c s' => if isspace c then lstrip s' else s
  end.

(** [rstrip] drops the trailing white space: a character stays when it is
    not white space or something that stays follows it. *)
Fixpoint rstrip (s : string) : string :=
  match s with
  | EmptyString => EmptyString
  | String c s' =>
      match rstrip s' with
      | EmptyString => if isspace c then EmptyString else String c EmptyString
      | r => String c r
      end
  end.

Definition strip (s : string) : string := rstrip (lstrip s).

Definition upper_char (c : ascii) : ascii :=
  let n := nat_of_ascii c in
  if ((97 <=? n)%nat && (n <=? 122)%nat)%bool then ascii_of_nat (n - 32) else c.

Fixpoint upper (s : string) : string :=
  match s with
  | EmptyString => EmptyString
  | String c s' => String (upper_char c) (upper s')
  end.

(** A cell of a sheet read by [pandas.read_excel]: a number, a string, or
    empty ([NaN]). *)
Inductive cell :=
  | Num (x : Q)
  | Str (s : string)
  | Empty.

(** [pd.notna(c)] *)
Definition notna (c : cell) : bool :=
  match c with Empty => false | _ => true end.

(** [isinstance(c, (int, float))] *)
Definition is_number (c : cell) : bool :=
  match c with Num _ => true | _ => false end.

(** [float(c)] on a non-empty cell; [None] stands for the [ValueError]
    that the callers catch. *)
Definition float_of_cell `{Builtins} (c : cell) : option Q :=
  match c with
  | Num x => Some x
  | Str s => float_of_str s
  | Empty => None
  end.

(** [str(c)] *)
Definition str_of_cell `{Builtins} (c : cell) : string :=
  match c with
  | Num x => str_of_num x
  | Str s => s
  | Empty => "nan"
  end.

(** A sheet read with its first row as header: the column names and the
    rows, each as wide as the header. *)
Record DataFrame := {
  columns : list string;
  rows : list (list cell)
}.

Fixpoint index_of (name : string) (cols : list string) : option nat :=
  match cols with
  | [] => None
  | c :: cols' =>
      if String.eqb name c then Some 0%nat
      else option_map S (index_of name cols')
  end.

(** [col in df.columns] *)
Definition has_column (df : DataFrame) (name : string) : bool :=
  match index_of name (columns df) with Some _ => true | None => false end.

(** [row[col]] for a column of the header. *)
Definition at_column (df : DataFrame) (row : list cell) (name : string) : cell :=
  match index_of name (columns df) with
  | Some i => nth i row Empty
  | None => Empty
  end.

(** [input().strip()] in a [while True] loop that goes round again
    ([continue]) on an answer it does not take: [accept] gives the value
    taken from a stripped answer.  [stdin] holds the answers still to come;
    [input()] raises [EOFError] when there is none. *)
Fixpoint ask {A} (accept : string -> option A) (stdin : list string)
  : outcome A * list string :=
  match stdin with
  | [] => (Raise EOFError, [])
  | line :: rest =>
      match accept (strip line) with
      | Some a => (Return a, rest)
      | None => ask accept rest
      end
  end.

(** [if not s: continue], then [float(s)] with [ValueError] caught and
    the loop continued. *)
Definition accept_float `{Builtins} (s : string) : option Q :=
  if String.eqb s "" then None else float_of_str s.

End Py.

(** ** CostofEquity.py *)

Module CostOfEquity.
Import Py.

(** The attributes of [BetaCalculator] that the loaders write. *)
Record BetaCalculator := {
  bond_yield_data : option (gmap string Q);
  erp_data : option (gmap string Q)
}.

Definition init : BetaCalculator :=
  {| bond_yield_data := None; erp_data := None |}.

Definition possible_yield_columns : list string :=
  ["Yield 10y"; "10Y Yield"; "Yield"; "10 Year Yield"].

Definition possible_erp_columns : list string :=
  ["Total Equity Risk Premium"; "Equity Risk Premium"; "ERP"].

(** [for col in possible: if col in df.columns: ...; break] *)
Definition find_column (df : DataFrame) (possible : list string) : option string :=
  List.find (has_column df) possible.

Section Loaders.
Context `{Builtins}.

(** The body of the row loop of [load_bond_yield_data] (lines 110-123). *)
Definition bond_row (df : DataFrame) (yield_column : string)
    (data : gmap string Q) (row : list cell) : gmap string Q :=
  let c := at_column df row "Country" in
  let v := at_column df row yield_column in
  if notna c && notna v then
    let country := strip (str_of_cell c) in
    match float_of_cell v with
    | Some yield_value =>
        let yield_value :=
          if gtb yield_value 1 then yield_value / 100 else yield_value in
        <[upper country := yield_value]> data
    | None => data
    end
  else data.

(** [load_bond_yield_data]: [file] is the sheet at [bond_file_path], [None]
    when the file is missing or cannot be read. *)
Definition load_bond_yield_data (file : option DataFrame) (self : BetaCalculator)
  : bool * BetaCalculator :=
  match file with
  | None => (false, self)
  | Some df =>
      if negb (has_column df "Country") then (false, self)
      else
        match find_column df possible_yield_columns with
        | None => (false, self)
        | Some yield_column =>
            (true,
             {| bond_yield_data :=
                  Some (fold_left (bond_row df yield_column) (rows df) ∅);
                erp_data := erp_data self |})
        end
  end.

(** The body of the row loop of [load_erp_data] (lines 164-172). *)
Definition erp_row (df : DataFrame) (erp_column : string)
    (data : gmap string Q) (row : list cell) : gmap string Q :=
  let c := at_column df row "Country" in
  let v := at_column df row erp_column in
  if notna c && notna v then
    let country := strip (str_of_cell c) in
    match float_of_cell v with
    | Some erp => <[upper country := erp]> data
    | None => data
    end
  else data.

Definition load_erp_data (file : option DataFrame) (self : BetaCalculator)
  : bool * BetaCalculator :=
  match file with
  | None => (false, self)
  | Some df =>
      if negb (has_column df "Country") then (false, self)
      else
        match find_column df possible_erp_columns with
        | None => (false, self)
        | Some erp_column =>
            (true,
             {| bond_yield_data := bond_yield_data self;
                erp_data :=
                  Some (fold_left (erp_row df erp_column) (rows df) ∅) |})
        end
  end.

End Loaders.
End CostOfEquity.

(** ** CostofDebt.py *)

Module CostOfDebt.
Import Py.

(** One entry of a rating table: the dict with keys ['min_ratio'],
    ['max_ratio'], ['rating'] and ['spread']. *)
Record RatingBand := {
  min_ratio : Q;
  max_ratio : Q;
  band_rating : string;
  band_spread : Q
}.

(** [company_type]: ['large_cap'], ['small_cap'] or ['financial']. *)
Inductive CompanyType := large_cap | small_cap | financial.

(** [synthetic_ratings_data]: the dict with one list for each of the three
    keys. *)
Record RatingsData := {
  large_cap_table : list RatingBand;
  small_cap_table : list RatingBand;
  financial_table : list RatingBand
}.

Definition no_ratings : RatingsData :=
  {| large_cap_table := []; small_cap_table := []; financial_table := [] |}.

(** [synthetic_ratings_data[company_type]] *)
Definition table_of (data : RatingsData) (ty : CompanyType) : list RatingBand :=
  match ty with
  | large_cap => large_cap_table data
  | small_cap => small_cap_table data
  | financial => financial_table data
  end.

(** [synthetic_ratings_data[ty].append(band)] *)
Definition append_band (ty : CompanyType) (band : RatingBand) (data : RatingsData)
  : RatingsData :=
  match ty with
  | large_cap =>
      {| large_cap_table := large_cap_table data ++ [band];
         small_cap_table := small_cap_table data;
         financial_table := financial_table data |}
  | small_cap =>
      {| large_cap_table := large_cap_table data;
         small_cap_table := small_cap_table data ++ [band];
         financial_table := financial_table data |}
  | financial =>
      {| large_cap_table := large_cap_table data;
         small_cap_table := small_cap_table data;
         financial_table := financial_table data ++ [band] |}
  end.

(** [any(synthetic_ratings_data.values())]: some list is not empty. *)
Definition any_table (data : RatingsData) : bool :=
  match large_cap_table data, small_cap_table data, financial_table data with
  | [], [], [] => false
  | _, _, _ => true
  end.

(** The attributes of [CostOfDebtCalculator] that the modelled methods
    read or write. *)
Record CostOfDebtCalculator := {
  ebit : option Q;
  interest_expense : option Q;
  interest_coverage_ratio : option Q;
  company_type : option CompanyType;
  rating : option string;
  spread : option Q;
  risk_free_rate : option Q;
  tax_rate : option Q;
  cost_of_debt : option Q;
  synthetic_ratings_data : option RatingsData
}.

Definition init : CostOfDebtCalculator :=
  {| ebit := None; interest_expense := None; interest_coverage_ratio := None;
     company_type := None; rating := None; spread := None;
     risk_free_rate := None; tax_rate := None; cost_of_debt := None;
     synthetic_ratings_data := None |}.

Definition set_ebit (v : Q) (self : CostOfDebtCalculator) :=
  {| ebit := Some v; interest_expense := interest_expense self;
     interest_coverage_ratio := interest_coverage_ratio self;
     company_type := company_type self; rating := rating self;
     spread := spread self; risk_free_rate := risk_free_rate self;
     tax_rate := tax_rate self; cost_of_debt := cost_of_debt self;
     synthetic_ratings_data := synthetic_ratings_data self |}.

(** [self.interest_expense = i; self.interest_coverage_ratio = r] *)
Definition set_coverage (i r : Q) (self : CostOfDebtCalculator) :=
  {| ebit := ebit self; interest_expense := Some i;
     interest_coverage_ratio := Some r;
     company_type := company_type self; rating := rating self;
     spread := spread self; risk_free_rate := risk_free_rate self;
     tax_rate := tax_rate self; cost_of_debt := cost_of_debt self;
     synthetic_ratings_data := synthetic_ratings_data self |}.

Definition set_interest_expense (i : Q) (self : CostOfDebtCalculator) :=
  {| ebit := ebit self; interest_expense := Some i;
     interest_coverage_ratio := interest_coverage_ratio self;
     company_type := company_type self; rating := rating self;
     spread := spread self; risk_free_rate := risk_free_rate self;
     tax_rate := tax_rate self; cost_of_debt := cost_of_debt self;
     synthetic_ratings_data := synthetic_ratings_data self |}.

(** [self.rating = band['rating']; self.spread = band['spread']] *)
Definition set_rating (band : RatingBand) (self : CostOfDebtCalculator) :=
  {| ebit := ebit self; interest_expense := interest_expense self;
     interest_coverage_ratio := interest_coverage_ratio self;
     company_type := company_type self; rating := Some (band_rating band);
     spread := Some (band_spread band); risk_free_rate := risk_free_rate self;
     tax_rate := tax_rate self; cost_of_debt := cost_of_debt self;
     synthetic_ratings_data := synthetic_ratings_data self |}.

Definition set_cost_of_debt (v : Q) (self : CostOfDebtCalculator) :=
  {| ebit := ebit self; interest_expense := interest_expense self;
     interest_coverage_ratio := interest_coverage_ratio self;
     company_type := company_type self; rating := rating self;
     spread := spread self; risk_free_rate := risk_free_rate self;
     tax_rate := tax_rate self; cost_of_debt := Some v;
     synthetic_ratings_data := synthetic_ratings_data self |}.

Definition set_synthetic_ratings_data (d : RatingsData) (self : CostOfDebtCalculator) :=
  {| ebit := ebit self; interest_expense := interest_expense self;
     interest_coverage_ratio := interest_coverage_ratio self;
     company_type := company_type self; rating := rating self;
     spread := spread self; risk_free_rate := risk_free_rate self;
     tax_rate := tax_rate self; cost_of_debt := cost_of_debt self;
     synthetic_ratings_data := Some d |}.

Section Methods.
Context `{Builtins}.

(** *** [load_synthetic_ratings_data] *)

(** [row[k]] on a row of a sheet read with [header=None]: the columns are
    numbered, and a number past the width raises [KeyError]. *)
Definition at_position (row : list cell) (k : nat) : outcome cell :=
  match nth_error row k with
  | Some c => Return c
  | None => Raise KeyError
  end.

(** [pd.notna(row[k])] *)
Definition notna_at (row : list cell) (k : nat) : outcome bool :=
  bind (at_position row k) (fun c => Return (notna c)).

(** [a and b], where evaluating either side can raise: [b] is evaluated
    only when [a] is true. *)
Definition and_then (a b : outcome bool) : outcome bool :=
  bind a (fun x => if x then b else Return false).

(** One block of four columns starting at [k] (lines 59-71, and the same
    for the other two blocks): the band to append, if any.  The cells are
    all present when the band is built, so only [float] of a string can
    fail there, with the [ValueError] that the [except] clause drops. *)
Definition read_block (row : list cell) (k : nat) : outcome (option RatingBand) :=
  bind (and_then (notna_at row k)
         (and_then (notna_at row (k + 1))
           (and_then (notna_at row (k + 2)) (notna_at row (k + 3)))))
    (fun present =>
       if present then
         let lo_cell := nth k row Empty in
         let hi_cell := nth (k + 1) row Empty in
         if is_number lo_cell && is_number hi_cell then
           match float_of_cell lo_cell, float_of_cell hi_cell,
                 float_of_cell (nth (k + 3) row Empty) with
           | Some lo, Some hi, Some sp =>
               Return (Some {| min_ratio := lo; max_ratio := hi;
                               band_rating := str_of_cell (nth (k + 2) row Empty);
                               band_spread := sp |})
           | _, _, _ => Return None
           end
         else Return None
       else Return None).

Definition append_opt (ty : CompanyType) (b : option RatingBand) (data : RatingsData) :=
  match b with
  | Some band => append_band ty band data
  | None => data
  end.

(** The body of the row loop: the three blocks in turn.  A [KeyError] is
    not caught inside the loop; what was appended before it stays. *)
Definition load_row (row : list cell) (data : RatingsData) : RatingsData * option exn :=
  match read_block row 0 with
  | Raise e => (data, Some e)
  | Return b0 =>
      let data := append_opt large_cap b0 data in
      match read_block row 5 with
      | Raise e => (data, Some e)
      | Return b1 =>
          let data := append_opt small_cap b1 data in
          match read_block row 10 with
          | Raise e => (data, Some e)
          | Return b2 => (append_opt financial b2 data, None)
          end
      end
  end.

Fixpoint load_rows (sheet : list (list cell)) (data : RatingsData)
  : RatingsData * option exn :=
  match sheet with
  | [] => (data, None)
  | row :: sheet' =>
      match load_row row data with
      | (data', None) => load_rows sheet' data'
      | (data', Some e) => (data', Some e)
      end
  end.

(** [load_synthetic_ratings_data]: [file] is the sheet at
    [ratings_file_path], read without a header, [None] when the file is
    missing or cannot be read.  The rows from index 3 on are parsed.  The
    outer [except Exception] turns an exception of the loop into [False];
    [synthetic_ratings_data] was assigned before the loop and keeps what
    was appended. *)
Definition load_synthetic_ratings_data (file : option (list (list cell)))
    (self : CostOfDebtCalculator) : bool * CostOfDebtCalculator :=
  match file with
  | None => (false, self)
  | Some sheet =>
      match load_rows (skipn 3 sheet) no_ratings with
      | (data, Some _) => (false, set_synthetic_ratings_data data self)
      | (data, None) => (any_table data, set_synthetic_ratings_data data self)
      end
  end.

(** *** [get_financial_inputs] *)

(** The two prompt loops, then the coverage ratio (lines 270-278).
    [stdin] holds the answers still to come. *)
Definition get_financial_inputs (self : CostOfDebtCalculator) (stdin : list string)
  : outcome bool * CostOfDebtCalculator * list string :=
  match ask accept_float stdin with
  | (Raise e, stdin) => (Raise e, self, stdin)
  | (Return ebit_input, stdin) =>
      let ebit_value := ebit_input * 1000000 in
      let self := set_ebit ebit_value self in
      match ask accept_float stdin with
      | (Raise e, stdin) => (Raise e, self, stdin)
      | (Return interest_input, stdin) =>
          let interest_value := interest_input * 1000000 in
          if leb interest_value 0 then
            (Return true, set_coverage 0 20 self, stdin)
          else
            match div ebit_value interest_value with
            | Raise e => (Raise e, set_interest_expense interest_value self, stdin)
            | Return ratio =>
                (Return true, set_coverage interest_value ratio self, stdin)
            end
      end
  end.

(** *** [assign_synthetic_rating] *)

(** [min_ratio <= ratio <= max_ratio] *)
Definition in_band (ratio : Q) (band : RatingBand) : bool :=
  leb (min_ratio band) ratio && leb ratio (max_ratio band).

(** The closed interval of a band contains the ratio. *)
Definition within (ratio : Q) (band : RatingBand) : Prop :=
  min_ratio band <= ratio /\ ratio <= max_ratio band.

(** The [for] loop over the table: the entry at which it returns. *)
Fixpoint first_band (ratio : Q) (table : list RatingBand) : option RatingBand :=
  match table with
  | [] => None
  | rating_entry :: table' =>
      if in_band ratio rating_entry then Some rating_entry
      else first_band ratio table'
  end.

(** What the method prints about the assignment: the block headed
    "Rating Assignment" of a match, or the warning "Coverage ratio outside
    normal range. Assigned worst rating". *)
Inductive notice :=
  | RatingAssignment (band : RatingBand)
  | OutsideNormalRange (band : RatingBand).

(** [assign_synthetic_rating]: the returned value (or the exception), the
    object, and the notice printed.  [synthetic_ratings_data[None]] is a
    [KeyError], and formatting a [None] coverage ratio with [:.2f] is a
    [TypeError]. *)
Definition assign_synthetic_rating (self : CostOfDebtCalculator)
  : outcome bool * CostOfDebtCalculator * option notice :=
  match synthetic_ratings_data self with
  | None => (Return false, self, None)
  | Some data =>
      match company_type self with
      | None => (Raise KeyError, self, None)
      | Some ty =>
          let rating_table := table_of data ty in
          match interest_coverage_ratio self with
          | None => (Raise TypeError, self, None)
          | Some ratio =>
              match first_band ratio rating_table with
              | Some rating_entry =>
                  (Return true, set_rating rating_entry self,
                   Some (RatingAssignment rating_entry))
              | None =>
                  match rating_table with
                  | [] => (Raise IndexError, self, None)
                  | worst_rating :: _ =>
                      (Return true, set_rating worst_rating self,
                       Some (OutsideNormalRange worst_rating))
                  end
              end
          end
      end
  end.

(** *** [calculate_cost_of_debt] *)

Definition calculate_cost_of_debt (self : CostOfDebtCalculator)
  : option Q * CostOfDebtCalculator :=
  match risk_free_rate self, spread self, tax_rate self with
  | Some rf, Some sp, Some tax =>
      let pre_tax_cost := rf + sp in
      let cod := pre_tax_cost * (1 - tax) in
      (Some cod, set_cost_of_debt cod self)
  | _, _, _ => (None, self)
  end.

End Methods.
End CostOfDebt.

(** ** WACC.py *)

Module WACC.
Import Py.

(** The attributes of [WACCCalculator] that the modelled methods read or
    write. *)
Record WACCCalculator := {
  cost_of_equity : option Q;
  cost_of_debt : option Q;
  ticker : option string;
  market_value_equity : option Q;
  market_value_debt : option Q;
  equity_value : option Q;
  debt_value : option Q;
  total_value : option Q;
  weight_equity : option Q;
  weight_debt : option Q;
  wacc : option Q;
  debt_maturity : option Q;
  interest_expense : option Q
}.

Definition init : WACCCalculator :=
  {| cost_of_equity := None; cost_of_debt := None; ticker := None;
     market_value_equity := None; market_value_debt := None;
     equity_value := None; debt_value := None; total_value := None;
     weight_equity := None; weight_debt := None; wacc := None;
     debt_maturity := None; interest_expense := None |}.

Definition set_ticker (v : string) (self : WACCCalculator) :=
  {| cost_of_equity := cost_of_equity self; cost_of_debt := cost_of_debt self;
     ticker := Some v; market_value_equity := market_value_equity self;
     market_value_debt := market_value_debt self;
     equity_value := equity_value self; debt_value := debt_value self;
     total_value := total_value self; weight_equity := weight_equity self;
     weight_debt := weight_debt self; wacc := wacc self;
     debt_maturity := debt_maturity self;
     interest_expense := interest_expense self |}.

Definition set_market_value_equity (v : Q) (self : WACCCalculator) :=
  {| cost_of_equity := cost_of_equity self; cost_of_debt := cost_of_debt self;
     ticker := ticker self; market_value_equity := Some v;
     market_value_debt := market_value_debt self;
     equity_value := equity_value self; debt_value := debt_value self;
     total_value := total_value self; weight_equity := weight_equity self;
     weight_debt := weight_debt self; wacc := wacc self;
     debt_maturity := debt_maturity self;
     interest_expense := interest_expense self |}.

Definition set_debt_maturity (v : Q) (self : WACCCalculator) :=
  {| cost_of_equity := cost_of_equity self; cost_of_debt := cost_of_debt self;
     ticker := ticker self; market_value_equity := market_value_equity self;
     market_value_debt := market_value_debt self;
     equity_value := equity_value self; debt_value := debt_value self;
     total_value := total_value self; weight_equity := weight_equity self;
     weight_debt := weight_debt self; wacc := wacc self;
     debt_maturity := Some v;
     interest_expense := interest_expense self |}.

Definition set_interest_expense (v : Q) (self : WACCCalculator) :=
  {| cost_of_equity := cost_of_equity self; cost_of_debt := cost_of_debt self;
     ticker := ticker self; market_value_equity := market_value_equity self;
     market_value_debt := market_value_debt self;
     equity_value := equity_value self; debt_value := debt_value self;
     total_value := total_value self; weight_equity := weight_equity self;
     weight_debt := weight_debt self; wacc := wacc self;
     debt_maturity := debt_maturity self;
     interest_expense := Some v |}.

(** [self.market_value_debt = v; self.equity_value = self.market_value_equity;
    self.debt_value = self.market_value_debt] *)
Definition set_market_values (v : Q) (self : WACCCalculator) :=
  {| cost_of_equity := cost_of_equity self; cost_of_debt := cost_of_debt self;
     ticker := ticker self; market_value_equity := market_value_equity self;
     market_value_debt := Some v;
     equity_value := market_value_equity self; debt_value := Some v;
     total_value := total_value self; weight_equity := weight_equity self;
     weight_debt := weight_debt self; wacc := wacc self;
     debt_maturity := debt_maturity self;
     interest_expense := interest_expense self |}.

Definition set_total_value (v : Q) (self : WACCCalculator) :=
  {| cost_of_equity := cost_of_equity self; cost_of_debt := cost_of_debt self;
     ticker := ticker self; market_value_equity := market_value_equity self;
     market_value_debt := market_value_debt self;
     equity_value := equity_value self; debt_value := debt_value self;
     total_value := Some v; weight_equity := weight_equity self;
     weight_debt := weight_debt self; wacc := wacc self;
     debt_maturity := debt_maturity self;
     interest_expense := interest_expense self |}.

Definition set_weight_equity (v : Q) (self : WACCCalculator) :=
  {| cost_of_equity := cost_of_equity self; cost_of_debt := cost_of_debt self;
     ticker := ticker self; market_value_equity := market_value_equity self;
     market_value_debt := market_value_debt self;
     equity_value := equity_value self; debt_value := debt_value self;
     total_value := total_value self; weight_equity := Some v;
     weight_debt := weight_debt self; wacc := wacc self;
     debt_maturity := debt_maturity self;
     interest_expense := interest_expense self |}.

Definition set_weight_debt (v : Q) (self : WACCCalculator) :=
  {| cost_of_equity := cost_of_equity self; cost_of_debt := cost_of_debt self;
     ticker := ticker self; market_value_equity := market_value_equity self;
     market_value_debt := market_value_debt self;
     equity_value := equity_value self; debt_value := debt_value self;
     total_value := total_value self; weight_equity := weight_equity self;
     weight_debt := Some v; wacc := wacc self;
     debt_maturity := debt_maturity self;
     interest_expense := interest_expense self |}.

Definition set_wacc (v : Q) (self : WACCCalculator) :=
  {| cost_of_equity := cost_of_equity self; cost_of_debt := cost_of_debt self;
     ticker := ticker self; market_value_equity := market_value_equity self;
     market_value_debt := market_value_debt self;
     equity_value := equity_value self; debt_value := debt_value self;
     total_value := total_value self; weight_equity := weight_equity self;
     weight_debt := weight_debt self; wacc := Some v;
     debt_maturity := debt_maturity self;
     interest_expense := interest_expense self |}.

Section Methods.
Context `{Builtins}.

(** *** [get_market_values] *)

(** The ticker loop (lines 135-163).  [market_cap] is the market data
    provider: the ['marketCap'] of a ticker, [None] when the lookup raises,
    has no data or has no market cap, each of which asks again.
    [self.ticker] is assigned before the lookup. *)
Fixpoint ask_ticker (market_cap : string -> option Q) (self : WACCCalculator)
    (stdin : list string) : outcome unit * WACCCalculator * list string :=
  match stdin with
  | [] => (Raise EOFError, self, [])
  | line :: rest =>
      let ticker_input := strip line in
      if String.eqb ticker_input "" then ask_ticker market_cap self rest
      else
        let self := set_ticker (upper ticker_input) self in
        match market_cap (upper ticker_input) with
        | None => ask_ticker market_cap self rest
        | Some cap => (Return tt, set_market_value_equity cap self, rest)
        end
  end.

(** The maturity loop (lines 185-202).  [self.debt_maturity] is assigned
    before the test [<= 0], and a maturity that fails the test is asked
    again. *)
Fixpoint ask_maturity (self : WACCCalculator) (stdin : list string)
  : outcome unit * WACCCalculator * list string :=
  match stdin with
  | [] => (Raise EOFError, self, [])
  | line :: rest =>
      match accept_float (strip line) with
      | None => ask_maturity self rest
      | Some m =>
          let self := set_debt_maturity m self in
          if leb m 0 then ask_maturity self rest
          else (Return tt, self, rest)
      end
  end.

(** The present value of the debt (lines 227-232), with the divisions in
    the order Python evaluates them. *)
Definition market_value_of_debt (interest cod book_debt maturity : Q) : outcome Q :=
  bind (div 1 (1 + cod)) (fun d =>
  bind (div (interest * (1 - d)) cod) (fun pv_interest =>
  bind (div book_debt (pow (1 + cod) maturity)) (fun pv_principal =>
  Return (pv_interest + pv_principal)))).

(** The present value of the interest plus that of the principal. *)
Definition present_value (interest cod book_debt maturity : Q) : Q :=
  interest * (1 - 1 / (1 + cod)) / cod + book_debt / pow (1 + cod) maturity.

(** [get_market_values].  [1 + self.cost_of_debt] is a [TypeError] when the
    cost of debt is [None]. *)
Definition get_market_values (market_cap : string -> option Q)
    (self : WACCCalculator) (stdin : list string)
  : outcome bool * WACCCalculator * list string :=
  match ask_ticker market_cap self stdin with
  | (Raise e, self, stdin) => (Raise e, self, stdin)
  | (Return _, self, stdin) =>
      match ask accept_float stdin with
      | (Raise e, stdin) => (Raise e, self, stdin)
      | (Return debt_input, stdin) =>
          let book_debt := debt_input * 1000000 in
          match ask_maturity self stdin with
          | (Raise e, self, stdin) => (Raise e, self, stdin)
          | (Return _, self, stdin) =>
              match ask accept_float stdin with
              | (Raise e, stdin) => (Raise e, self, stdin)
              | (Return interest_input, stdin) =>
                  let self := set_interest_expense (interest_input * 1000000) self in
                  match cost_of_debt self, debt_maturity self with
                  | Some cod, Some maturity =>
                      match market_value_of_debt (interest_input * 1000000)
                              cod book_debt maturity with
                      | Raise e => (Raise e, self, stdin)
                      | Return v => (Return true, set_market_values v self, stdin)
                      end
                  | _, _ => (Raise TypeError, self, stdin)
                  end
              end
          end
      end
  end.

(** *** [calculate_wacc] *)

(** [calculate_wacc]: [None] after the message "Missing required data for
    WACC calculation" when an input is [None]; the attributes are assigned
    one by one, so an exception leaves the ones assigned before it. *)
Definition calculate_wacc (self : WACCCalculator) : outcome (option Q) * WACCCalculator :=
  match cost_of_equity self, cost_of_debt self, equity_value self, debt_value self with
  | Some ce, Some cd, Some ev, Some dv =>
      let total := ev + dv in
      let self := set_total_value total self in
      match div ev total with
      | Raise e => (Raise e, self)
      | Return we =>
          let self := set_weight_equity we self in
          match div dv total with
          | Raise e => (Raise e, self)
          | Return wd =>
              let self := set_weight_debt wd self in
              let w := ce * we + cd * wd in
              (Return (Some w), set_wacc w self)
          end
      end
  | _, _, _, _ => (Return None, self)
  end.

(** The object after a run of [calculate_wacc] that divides. *)
Definition weighted (ce cd ev dv : Q) (self : WACCCalculator) : WACCCalculator :=
  set_wacc (ce * (ev / (ev + dv)) + cd * (dv / (ev + dv)))
    (set_weight_debt (dv / (ev + dv))
      (set_weight_equity (ev / (ev + dv))
        (set_total_value (ev + dv) self))).

End Methods.
End WACC.

(** ** More of Python's strings *)

Module PyText.
Import Py.

Definition lower_char (c : ascii) : ascii :=
  let n := nat_of_ascii c in
  if ((65 <=? n)%nat && (n <=? 90)%nat)%bool then ascii_of_nat (n + 32) else c.

(** [str.lower()] on the ASCII range. *)
Fixpoint lower (s : string) : string :=
  match s with
  | EmptyString => EmptyString
  | String c s' => String (lower_char c) (lower s')
  end.

(** [p in s] on strings: [p] occurs in [s]. *)
Fixpoint contains (p s : string) : bool :=
  String.prefix p s ||
  match s with
  | EmptyString => false
  | String _ s' => contains p s'
  end.

(** [d.get(k)] on a dict written out as a literal, in the order of its
    entries. *)
Fixpoint assoc {A} (k : string) (d : list (string * A)) : option A :=
  match d with
  | [] => None
  | (k', v) :: d' => if String.eqb k k' then Some v else assoc k d'
  end.

(** [for alt in alts: if alt in data: return data[alt]] *)
Fixpoint first_present (alts : list string) (data : gmap string Q) : option Q :=
  match alts with
  | [] => None
  | alt :: alts' =>
      match data !! alt with
      | Some v => Some v
      | None => first_present alts' data
      end
  end.

(** [if not lo <= x <= hi: continue] after [accept_float]: the loops that
    ask for a percentage. *)
Definition accept_percent `{Builtins} (lo hi : Q) (s : string) : option Q :=
  match accept_float s with
  | Some x => if leb lo x && leb x hi then Some x else None
  | None => None
  end.

End PyText.

(** ** CostofEquity.py: country lookups and CAPM *)

Module Capm.
Import Py PyText CostOfEquity.

(** The attributes of [BetaCalculator] that the methods below write, beside
    the two tables of [CostOfEquity.BetaCalculator]. *)
Record Rates := {
  detected_country : option string;
  equity_risk_premium : option Q;
  current_risk_free_rate : option Q;
  avg_risk_free_rate : option Q;
  bond_symbol : option string
}.

Definition no_rates : Rates :=
  {| detected_country := None; equity_risk_premium := None;
     current_risk_free_rate := None; avg_risk_free_rate := None;
     bond_symbol := None |}.

Definition set_detected_country (c : option string) (r : Rates) : Rates :=
  {| detected_country := c; equity_risk_premium := equity_risk_premium r;
     current_risk_free_rate := current_risk_free_rate r;
     avg_risk_free_rate := avg_risk_free_rate r; bond_symbol := bond_symbol r |}.

Definition set_equity_risk_premium (v : Q) (r : Rates) : Rates :=
  {| detected_country := detected_country r; equity_risk_premium := Some v;
     current_risk_free_rate := current_risk_free_rate r;
     avg_risk_free_rate := avg_risk_free_rate r; bond_symbol := bond_symbol r |}.

(** [self.current_risk_free_rate = y; self.avg_risk_free_rate = y;
    self.bond_symbol = sym] *)
Definition set_risk_free (y : Q) (sym : string) (r : Rates) : Rates :=
  {| detected_country := detected_country r;
     equity_risk_premium := equity_risk_premium r;
     current_risk_free_rate := Some y; avg_risk_free_rate := Some y;
     bond_symbol := Some sym |}.

(** [country_alternatives] of [get_bond_yield_from_excel] (lines 196-201). *)
Definition bond_country_alternatives : list (string * list string) :=
  [ ("USA", ["UNITED STATES"; "US"; "AMERICA"]);
    ("UNITED STATES", ["USA"; "US"; "AMERICA"]);
    ("UK", ["UNITED KINGDOM"; "BRITAIN"; "GREAT BRITAIN"]);
    ("UNITED KINGDOM", ["UK"; "BRITAIN"; "GREAT BRITAIN"]) ].

(** [get_bond_yield_from_excel] (lines 181-211). *)
Definition get_bond_yield_from_excel (self : BetaCalculator) (country : string)
  : option Q :=
  match bond_yield_data self with
  | None => None
  | Some data =>
      let country_upper := upper country in
      match data !! country_upper with
      | Some yield_value => Some yield_value
      | None =>
          match assoc country_upper bond_country_alternatives with
          | Some alts => first_present alts data
          | None => None
          end
      end
  end.

(** [retry in ['n', 'no']] on [input().strip().lower()] *)
Definition says_no (line : string) : bool :=
  let retry := lower (strip line) in
  String.eqb retry "n" || String.eqb retry "no".

(** The loop of [select_bond_country_from_excel] (lines 238-267): an empty
    answer is asked again; a country that is not found is followed by the
    question "Try again?". *)
Fixpoint ask_bond_country (self : BetaCalculator) (rates : Rates)
    (stdin : list string) : outcome (option Q) * Rates * list string :=
  match stdin with
  | [] => (Raise EOFError, rates, [])
  | line :: rest =>
      let country_input := strip line in
      if String.eqb country_input "" then ask_bond_country self rates rest
      else
        match get_bond_yield_from_excel self country_input with
        | Some yield_value =>
            (Return (Some yield_value),
             set_risk_free yield_value
               ("EXCEL_" ++ upper country_input ++ "_10Y") rates,
             rest)
        | None =>
            match rest with
            | [] => (Raise EOFError, rates, [])
            | retry :: rest' =>
                if says_no retry then (Return None, rates, rest')
                else ask_bond_country self rates rest'
            end
        end
  end.

(** [select_bond_country_from_excel] *)
Definition select_bond_country_from_excel (self : BetaCalculator) (rates : Rates)
    (stdin : list string) : outcome (option Q) * Rates * list string :=
  match bond_yield_data self with
  | None => (Return None, rates, stdin)
  | Some _ => ask_bond_country self rates stdin
  end.

(** [index_country_map] and [alternative_patterns] of
    [detect_country_from_index] (lines 272-283). *)
Definition index_country_map : list (string * string) :=
  [ ("^GSPC", "United States"); ("^DJI", "United States");
    ("^IXIC", "United States"); ("^GDAXI", "Germany"); ("^FCHI", "France");
    ("FTSEMIB.MI", "Italy"); ("^FTSE", "United Kingdom");
    ("^AEX", "Netherlands"); ("^SSMI", "Switzerland"); ("^IBEX", "Spain");
    ("^N225", "Japan"); ("^AORD", "Australia"); ("^GSPTSE", "Canada");
    ("^BVSP", "Brazil"); ("^MXX", "Mexico") ].

Definition alternative_patterns : list (string * string) :=
  [ (".MI", "Italy"); (".DE", "Germany"); (".PA", "France");
    (".L", "United Kingdom"); (".AS", "Netherlands");
    (".SW", "Switzerland"); (".TO", "Canada"); (".AX", "Australia") ].

(** [for pattern, country in patterns.items():
       if pattern.upper() in index_upper: return country] *)
Fixpoint first_pattern (patterns : list (string * string)) (index_upper : string)
  : option string :=
  match patterns with
  | [] => None
  | (pattern, country) :: patterns' =>
      if contains (upper pattern) index_upper then Some country
      else first_pattern patterns' index_upper
  end.

(** [detect_country_from_index] (lines 269-296). *)
Definition detect_country_from_index (index_symbol : string) : option string :=
  let index_upper := upper index_symbol in
  match assoc index_upper index_country_map with
  | Some country => Some country
  | None => first_pattern alternative_patterns index_upper
  end.

(** [country_alternatives] of [get_equity_risk_premium] (lines 319-322). *)
Definition erp_country_alternatives : list (string * list string) :=
  [ ("UNITED STATES", ["USA"; "US"]); ("UNITED KINGDOM", ["UK"; "BRITAIN"]) ].

(** The two nested loops over [erp_country_alternatives] (lines 324-331):
    every entry whose name is the country is tried in turn. *)
Fixpoint first_alternative (alternatives : list (string * list string))
    (country_upper : string) (data : gmap string Q) : option Q :=
  match alternatives with
  | [] => None
  | (standard_name, alts) :: alternatives' =>
      if String.eqb country_upper standard_name then
        match first_present alts data with
        | Some v => Some v
        | None => first_alternative alternatives' country_upper data
        end
      else first_alternative alternatives' country_upper data
  end.

(** [get_equity_risk_premium] (lines 298-334): [self.detected_country] is
    assigned whatever the detection gives. *)
Definition get_equity_risk_premium (self : BetaCalculator) (rates : Rates)
    (index_symbol : string) : option Q * Rates :=
  match erp_data self with
  | None => (None, rates)
  | Some data =>
      let rates := set_detected_country (detect_country_from_index index_symbol) rates in
      match detected_country rates with
      | None => (None, rates)
      | Some country =>
          let country_upper := upper country in
          match data !! country_upper with
          | Some erp => (Some erp, set_equity_risk_premium erp rates)
          | None =>
              match first_alternative erp_country_alternatives country_upper data with
              | Some erp => (Some erp, set_equity_risk_premium erp rates)
              | None => (None, rates)
              end
          end
      end
  end.

(** What one call of [input] in [get_manual_equity_risk_premium] meets: a
    line that the user types, or Ctrl-C, which makes [input] raise
    [KeyboardInterrupt]. *)
Inductive keyboard :=
  | Answer (line : string)
  | Interrupt.

Section Methods.
Context `{Builtins}.

(** [get_manual_equity_risk_premium] (lines 336-370).  The loop asks until a
    number from 0 to 25 is typed; an empty line, a line that is no number
    ([except ValueError]) and a number out of the range ask again;
    [except KeyboardInterrupt: return None] leaves the loop with [None] and
    assigns nothing.  When the input ends, [input] raises [EOFError], which
    the method does not catch. *)
Fixpoint get_manual_equity_risk_premium (rates : Rates) (stdin : list keyboard)
  : outcome (option Q) * Rates * list keyboard :=
  match stdin with
  | [] => (Raise EOFError, rates, [])
  | Interrupt :: stdin' => (Return None, rates, stdin')
  | Answer line :: stdin' =>
      match accept_percent 0 25 (strip line) with
      | Some erp_percent =>
          (Return (Some (erp_percent / 100)),
           set_equity_risk_premium (erp_percent / 100) rates, stdin')
      | None => get_manual_equity_risk_premium rates stdin'
      end
  end.

End Methods.

(** [calculate_cost_of_equity] (lines 457-491).  [beta] is [self.beta]; the
    method writes no attribute. *)
Definition calculate_cost_of_equity (beta : option Q) (rates : Rates)
    (market_risk_premium : option Q) : option Q :=
  match beta, current_risk_free_rate rates with
  | Some b, Some rf =>
      let market_risk_premium :=
        match market_risk_premium with
        | Some p => Some p
        | None => equity_risk_premium rates
        end in
      match market_risk_premium with
      | Some p => Some (rf + b * p)
      | None => None
      end
  | _, _ => None
  end.

End Capm.

(** ** CostofDebt.py: company type, risk-free rate and tax rate *)

Module DebtInputs.
Import Py PyText CostOfDebt.

(** What [yf.Ticker(ticker).info] gives, as far as the method reads it:
    ['marketCap'], ['sector'] and ['industry'], each possibly missing. *)
Record CompanyInfo := {
  marketCap : option Q;
  sector : option string;
  industry : option string
}.

Definition financial_keywords : list string :=
  ["financial"; "bank"; "insurance"; "credit"; "mortgage"; "investment";
   "securities"; "asset management"].

(** [any(keyword in text for keyword in financial_keywords)] *)
Definition any_keyword (text : string) : bool :=
  existsb (fun keyword => contains keyword text) financial_keywords.

(** [info.get(key, '').lower()] *)
Definition text_of (field : option string) : string :=
  match field with
  | Some s => lower s
  | None => EmptyString
  end.

(** Lines 207-214. *)
Definition is_financial (info : CompanyInfo) : bool :=
  any_keyword (text_of (sector info)) || any_keyword (text_of (industry info)).

(** Lines 217-222. *)
Definition company_type_of (financial_firm : bool) (market_cap : Q) : CompanyType :=
  if financial_firm then financial
  else if gtb market_cap 5000000000 then large_cap
  else small_cap.

Definition set_company_type (ty : CompanyType) (self : CostOfDebtCalculator) :=
  {| ebit := ebit self; interest_expense := interest_expense self;
     interest_coverage_ratio := interest_coverage_ratio self;
     company_type := Some ty; rating := rating self;
     spread := spread self; risk_free_rate := risk_free_rate self;
     tax_rate := tax_rate self; cost_of_debt := cost_of_debt self;
     synthetic_ratings_data := synthetic_ratings_data self |}.

Definition set_risk_free_rate (v : Q) (self : CostOfDebtCalculator) :=
  {| ebit := ebit self; interest_expense := interest_expense self;
     interest_coverage_ratio := interest_coverage_ratio self;
     company_type := company_type self; rating := rating self;
     spread := spread self; risk_free_rate := Some v;
     tax_rate := tax_rate self; cost_of_debt := cost_of_debt self;
     synthetic_ratings_data := synthetic_ratings_data self |}.

Definition set_tax_rate (v : Q) (self : CostOfDebtCalculator) :=
  {| ebit := ebit self; interest_expense := interest_expense self;
     interest_coverage_ratio := interest_coverage_ratio self;
     company_type := company_type self; rating := rating self;
     spread := spread self; risk_free_rate := risk_free_rate self;
     tax_rate := Some v; cost_of_debt := cost_of_debt self;
     synthetic_ratings_data := synthetic_ratings_data self |}.

(** The dict that [stock.info] evaluates to: empty, so that
    [not self.company_info] holds, or with entries. *)
Inductive InfoDict :=
  | NoData
  | Data (info : CompanyInfo).

(** The attributes that [get_company_info] assigns beside [company_type]. *)
Record Company := {
  ticker : option string;
  company_info : option InfoDict;
  market_cap : option Q;
  is_financial_firm : option bool   (* [self.is_financial] *)
}.

(** The object before [get_company_info] has run. *)
Definition no_company : Company :=
  {| ticker := None; company_info := None; market_cap := None;
     is_financial_firm := None |}.

Definition set_ticker (t : string) (company : Company) :=
  {| ticker := Some t; company_info := company_info company;
     market_cap := market_cap company;
     is_financial_firm := is_financial_firm company |}.

Definition set_company_info (d : InfoDict) (company : Company) :=
  {| ticker := ticker company; company_info := Some d;
     market_cap := market_cap company;
     is_financial_firm := is_financial_firm company |}.

(** [self.market_cap = self.company_info.get('marketCap', None)]: the
    attribute is assigned also when the entry is missing. *)
Definition set_market_cap (cap : option Q) (company : Company) :=
  {| ticker := ticker company; company_info := company_info company;
     market_cap := cap;
     is_financial_firm := is_financial_firm company |}.

Definition set_is_financial (b : bool) (company : Company) :=
  {| ticker := ticker company; company_info := company_info company;
     market_cap := market_cap company;
     is_financial_firm := Some b |}.

(** [get_company_info] (lines 187-236).  [stock_info] is the market data
    provider: what [yf.Ticker(t).info] evaluates to for the ticker [t],
    [None] when it raises ([except Exception: return False]).  The object is
    the pair of [self], which holds [company_type], and [company], which
    holds the four other attributes that the method assigns.  The
    assignments are made in the order of the source, so that the ones made
    before a [return False] stay. *)
Definition get_company_info (stock_info : string -> option InfoDict)
    (ticker_symbol : string) (self : CostOfDebtCalculator) (company : Company)
  : bool * CostOfDebtCalculator * Company :=
  let company := set_ticker (upper ticker_symbol) company in
  match stock_info (upper ticker_symbol) with
  | None => (false, self, company)
  | Some info_dict =>
      let company := set_company_info info_dict company in
      match info_dict with
      | NoData => (false, self, company)
      | Data info =>
          let company := set_market_cap (marketCap info) company in
          match marketCap info with
          | None => (false, self, company)
          | Some cap =>
              let financial_firm := is_financial info in
              let company := set_is_financial financial_firm company in
              (true, set_company_type (company_type_of financial_firm cap) self,
               company)
          end
      end
  end.

(** [country_alternatives] of [select_risk_free_rate] (lines 371-376). *)
Definition country_alternatives : list (string * list string) :=
  [ ("USA", ["UNITED STATES"; "US"]);
    ("UNITED STATES", ["USA"; "US"]);
    ("UK", ["UNITED KINGDOM"; "BRITAIN"]);
    ("UNITED KINGDOM", ["UK"; "BRITAIN"]) ].

(** The exact match, then the alternative names (lines 362-385). *)
Definition lookup_country (data : gmap string Q) (country_upper : string) : option Q :=
  match data !! country_upper with
  | Some y => Some y
  | None =>
      match assoc country_upper country_alternatives with
      | Some alts => first_present alts data
      | None => None
      end
  end.

(** The loop of [select_risk_free_rate] (lines 355-393). *)
Fixpoint ask_country (data : gmap string Q) (self : CostOfDebtCalculator)
    (stdin : list string) : outcome bool * CostOfDebtCalculator * list string :=
  match stdin with
  | [] => (Raise EOFError, self, [])
  | line :: rest =>
      let country_input := strip line in
      if String.eqb country_input "" then ask_country data self rest
      else
        match lookup_country data (upper country_input) with
        | Some y => (Return true, set_risk_free_rate y self, rest)
        | None =>
            match rest with
            | [] => (Raise EOFError, self, [])
            | retry :: rest' =>
                if Capm.says_no retry then (Return false, self, rest')
                else ask_country data self rest'
            end
        end
  end.

(** [select_risk_free_rate]: [bond_yield_data] is the attribute of that
    name, the table that [load_bond_yield_data] builds. *)
Definition select_risk_free_rate (bond_yield_data : option (gmap string Q))
    (self : CostOfDebtCalculator) (stdin : list string)
  : outcome bool * CostOfDebtCalculator * list string :=
  match bond_yield_data with
  | None => (Return false, self, stdin)
  | Some data => ask_country data self stdin
  end.

Section Methods.
Context `{Builtins}.

(** [get_tax_rate] (lines 395-426). *)
Definition get_tax_rate (self : CostOfDebtCalculator) (stdin : list string)
  : outcome bool * CostOfDebtCalculator * list string :=
  match ask (accept_percent 0 60) stdin with
  | (Raise e, stdin) => (Raise e, self, stdin)
  | (Return tax_percent, stdin) =>
      (Return true, set_tax_rate (tax_percent / 100) self, stdin)
  end.

End Methods.
End DebtInputs.

(** ** WACC.py: the inputs and the main function *)

Module WACCInputs.
Import Py PyText WACC.

Definition set_cost_of_equity (v : Q) (self : WACCCalculator) :=
  {| cost_of_equity := Some v; cost_of_debt := cost_of_debt self;
     ticker := ticker self; market_value_equity := market_value_equity self;
     market_value_debt := market_value_debt self;
     equity_value := equity_value self; debt_value := debt_value self;
     total_value := total_value self; weight_equity := weight_equity self;
     weight_debt := weight_debt self; wacc := wacc self;
     debt_maturity := debt_maturity self;
     interest_expense := interest_expense self |}.

Definition set_cost_of_debt (v : Q) (self : WACCCalculator) :=
  {| cost_of_equity := cost_of_equity self; cost_of_debt := Some v;
     ticker := ticker self; market_value_equity := market_value_equity self;
     market_value_debt := market_value_debt self;
     equity_value := equity_value self; debt_value := debt_value self;
     total_value := total_value self; weight_equity := weight_equity self;
     weight_debt := weight_debt self; wacc := wacc self;
     debt_maturity := debt_maturity self;
     interest_expense := interest_expense self |}.

(** [self.equity_value = e; self.debt_value = d] *)
Definition set_values (e d : Q) (self : WACCCalculator) :=
  {| cost_of_equity := cost_of_equity self; cost_of_debt := cost_of_debt self;
     ticker := ticker self; market_value_equity := market_value_equity self;
     market_value_debt := market_value_debt self;
     equity_value := Some e; debt_value := Some d;
     total_value := total_value self; weight_equity := weight_equity self;
     weight_debt := weight_debt self; wacc := wacc self;
     debt_maturity := debt_maturity self;
     interest_expense := interest_expense self |}.

(** [valuation_method]: ['market'] or ['book']. *)
Inductive Valuation := market | book.

(** What [select_valuation_method] takes from a stripped answer in lower
    case (lines 116-126). *)
Definition accept_method (method_input : string) : option Valuation :=
  if String.eqb method_input "" || String.eqb method_input "market"
     || String.eqb method_input "m" then Some market
  else if String.eqb method_input "book" || String.eqb method_input "b"
  then Some book
  else None.

(** [select_valuation_method] (lines 102-126): the method chosen, which the
    method stores as [self.valuation_method]. *)
Definition select_valuation_method (stdin : list string)
  : outcome Valuation * list string :=
  ask (fun s => accept_method (lower s)) stdin.

Section Methods.
Context `{Builtins}.

(** [get_cost_inputs] (lines 43-100). *)
Definition get_cost_inputs (self : WACCCalculator) (stdin : list string)
  : outcome bool * WACCCalculator * list string :=
  match ask (accept_percent 0 50) stdin with
  | (Raise e, stdin) => (Raise e, self, stdin)
  | (Return equity_percent, stdin) =>
      let self := set_cost_of_equity (equity_percent / 100) self in
      match ask (accept_percent 0 30) stdin with
      | (Raise e, stdin) => (Raise e, self, stdin)
      | (Return debt_percent, stdin) =>
          (Return true, set_cost_of_debt (debt_percent / 100) self, stdin)
      end
  end.

(** [get_book_values] (lines 245-288); [book_value_equity] and
    [book_value_debt] hold the same two numbers. *)
Definition get_book_values (self : WACCCalculator) (stdin : list string)
  : outcome bool * WACCCalculator * list string :=
  match ask accept_float stdin with
  | (Raise e, stdin) => (Raise e, self, stdin)
  | (Return equity_input, stdin) =>
      match ask accept_float stdin with
      | (Raise e, stdin) => (Raise e, self, stdin)
      | (Return debt_input, stdin) =>
          (Return true,
           set_values (equity_input * 1000000) (debt_input * 1000000) self, stdin)
      end
  end.

(** Steps 1 to 4 of [main] (lines 482-501): the value [calculate_wacc]
    returns, or the exception that the [except] clauses of [main] print. *)
Definition main_steps (market_cap : string -> option Q) (stdin : list string)
  : outcome (option Q) * WACCCalculator * list string :=
  match get_cost_inputs init stdin with
  | (Raise e, calc, stdin) => (Raise e, calc, stdin)
  | (Return _, calc, stdin) =>
      match select_valuation_method stdin with
      | (Raise e, stdin) => (Raise e, calc, stdin)
      | (Return method, stdin) =>
          let values :=
            match method with
            | market => get_market_values market_cap calc stdin
            | book => get_book_values calc stdin
            end in
          match values with
          | (Raise e, calc, stdin) => (Raise e, calc, stdin)
          | (Return false, calc, stdin) => (Return None, calc, stdin)
          | (Return true, calc, stdin) =>
              let '(wacc_result, calc) := calculate_wacc calc in
              (wacc_result, calc, stdin)
          end
      end
  end.

End Methods.
End WACCInputs.

(** ** CostofDebt.py: the bond yield table *)

Module DebtTables.
Import Py CostOfEquity.

Section Loader.
Context `{Builtins}.

(** [load_bond_yield_data] of [CostOfDebtCalculator] (lines 133-185): the
    same checks and the same row loop as in [BetaCalculator] (the rows are
    stored by [CostOfEquity.bond_row]).  [bond_yield_data] is the attribute
    of that name, returned as assigned. *)
Definition load_bond_yield_data (file : option DataFrame)
    (bond_yield_data : option (gmap string Q)) : bool * option (gmap string Q) :=
  match file with
  | None => (false, bond_yield_data)
  | Some df =>
      if negb (has_column df "Country") then (false, bond_yield_data)
      else
        match find_column df possible_yield_columns with
        | None => (false, bond_yield_data)
        | Some yield_column =>
            (true, Some (fold_left (bond_row df yield_column) (rows df) ∅))
        end
  end.

End Loader.
End DebtTables.

(** ** Rating sheets written out *)

Module RatingSheets.
Import Py CostOfDebt.

(** The four cells of a block that holds a band, or that is empty. *)
Definition block_cells (b : option RatingBand) : list cell :=
  match b with
  | Some band =>
      [Num (min_ratio band); Num (max_ratio band); Str (band_rating band);
       Num (band_spread band)]
  | None => [Empty; Empty; Empty; Empty]
  end.

(** A row of fourteen cells: the large cap block in columns 0 to 3, the
    small cap block in 5 to 8, the financial block in 10 to 13. *)
Definition sheet_row (b : option RatingBand * option RatingBand * option RatingBand)
  : list cell :=
  let '(b0, b1, b2) := b in
  block_cells b0 ++ [Empty] ++ block_cells b1 ++ [Empty] ++ block_cells b2.

(** Bands that follow one another: each band is an interval, and each
    starts where the one before ends. *)
Fixpoint contiguous (table : list RatingBand) : Prop :=
  match table with
  | [] => True
  | band :: rest =>
      min_ratio band <= max_ratio band /\
      match rest with
      | [] => True
      | next :: _ => max_ratio band == min_ratio next
      end /\
      contiguous rest
  end.

End RatingSheets.

(** ** CostofEquity.py: the beta regression *)

Module Beta.
Import Py.

(** A numpy [float64], the type of the values that [stats.linregress]
    returns: a finite number, an infinity or [nan].  Its arithmetic raises
    no exception; a division by zero gives an infinity or [nan] with a
    warning, and line 10 silences the warnings. *)
Inductive float64 :=
  | Finite (x : Q)
  | Infinity (negative : bool)
  | NaN.

Definition isnan (a : float64) : bool :=
  match a with
  | NaN => true
  | _ => false
  end.

(** [x < 0] *)
Definition is_negative (x : Q) : bool := gtb 0 x.

(** [a / b] on [float64].  The sign of a zero is not kept: a zero divisor
    counts as [+0.0], which is what a standard error of zero is. *)
Definition true_divide (a b : float64) : float64 :=
  match a, b with
  | NaN, _ => NaN
  | _, NaN => NaN
  | Infinity _, Infinity _ => NaN
  | Infinity negative, Finite y => Infinity (xorb negative (is_negative y))
  | Finite _, Infinity _ => Finite 0
  | Finite x, Finite y =>
      if eqb y 0 then
        if eqb x 0 then NaN else Infinity (is_negative x)
      else Finite (x / y)
  end.

(** [a ** 2] *)
Definition square (a : float64) : float64 :=
  match a with
  | Finite x => Finite (x * x)
  | Infinity _ => Infinity false
  | NaN => NaN
  end.

(** The five values that [stats.linregress] returns, in the order in which
    line 433 unpacks them. *)
Record LinregressResult := {
  slope : float64;
  intercept : float64;
  rvalue : float64;
  pvalue : float64;
  stderr : float64
}.

(** A call into scipy: the value it returns or the exception it raises. *)
Inductive call (E A : Type) : Type :=
  | Gives (a : A)
  | Throws (e : E).
Arguments Gives {E A} a.
Arguments Throws {E A} e.

(** The attributes of [BetaCalculator] that [calculate_beta] reads and
    writes. *)
Record BetaEstimates := {
  stock_returns : option (list float64);
  index_returns : option (list float64);
  beta : option float64;
  alpha : option float64;
  r_squared : option float64;
  correlation : option float64;
  p_value : option float64;
  std_error : option float64;
  t_statistic : option float64
}.

(** [pd.DataFrame({'stock': ..., 'index': ...}).dropna()] (lines 428-431).
    The two series have the same dates, as [calculate_returns] leaves them
    (lines 411-413), so that the rows pair them by position; a row with a
    [nan] in it is dropped. *)
Definition dropna (rows : list (float64 * float64)) : list (float64 * float64) :=
  List.filter (fun row => negb (isnan (fst row)) && negb (isnan (snd row))) rows.

(** [calculate_beta] (lines 422-455).  [linregress] is [stats.linregress]
    and [corr] is [Series.corr].  Nothing is caught: an exception of
    [linregress] leaves the method before any attribute is assigned.
    Nothing is tested between the regression and [return True]: the
    t-statistic is [slope / std_err] whatever the two values are. *)
Definition calculate_beta {E}
    (linregress : list float64 -> list float64 -> call E LinregressResult)
    (corr : list float64 -> list float64 -> float64)
    (self : BetaEstimates) : call E bool * BetaEstimates :=
  match stock_returns self, index_returns self with
  | Some stock, Some index =>
      let combined_data := dropna (List.combine stock index) in
      let combined_stock := map fst combined_data in
      let combined_index := map snd combined_data in
      match linregress combined_index combined_stock with
      | Throws e => (Throws e, self)
      | Gives fit =>
          (Gives true,
           {| stock_returns := stock_returns self;
              index_returns := index_returns self;
              beta := Some (slope fit);
              alpha := Some (intercept fit);
              r_squared := Some (square (rvalue fit));
              correlation := Some (corr combined_stock combined_index);
              p_value := Some (pvalue fit);
              std_error := Some (stderr fit);
              t_statistic := Some (true_divide (slope fit) (stderr fit)) |})
      end
  | _, _ => (Gives false, self)
  end.

End Beta.

(** ** Sample inputs *)

Module Samples.
Import Py CostOfEquity CostOfDebt.

(** A sheet with the one row [" Italy ", 5.5] under the given value
    column. *)
Definition italy_sheet (value_column : string) : DataFrame :=
  {| columns := ["Country"; value_column];
     rows := [[Str " Italy "; Num 5.5]] |}.



(** The band D, from 0 to 1.5. *)
Definition band_D : RatingBand :=
  {| min_ratio := 0; max_ratio := 1.5; band_rating := "D"; band_spread := 0.10 |}.

(** The table of three bands D, B and A, with 1.5 and 3 as shared
    boundaries. *)
Definition three_bands : list RatingBand :=
  [ band_D;
    {| min_ratio := 1.5; max_ratio := 3; band_rating := "B"; band_spread := 0.05 |};
    {| min_ratio := 3; max_ratio := 999; band_rating := "A"; band_spread := 0.01 |} ].

(** Ratings loaded for large caps only. *)
Definition large_cap_ratings : RatingsData :=
  {| large_cap_table := three_bands; small_cap_table := [];
     financial_table := [] |}.

(** A company of the given type and coverage ratio, with those ratings
    loaded. *)
Definition company (ty : CompanyType) (ratio : Q) : CostOfDebtCalculator :=
  {| ebit := None; interest_expense := None;
     interest_coverage_ratio := Some ratio;
     company_type := Some ty; rating := None; spread := None;
     risk_free_rate := None; tax_rate := None; cost_of_debt := None;
     synthetic_ratings_data := Some large_cap_ratings |}.

(** The rating and spread stored by [assign_synthetic_rating]. *)
Definition rated (self : CostOfDebtCalculator) : option string * option Q :=
  let '(_, self', _) := assign_synthetic_rating self in (rating self', spread self').

(** A calculator with the three inputs of the cost of debt given. *)
Definition borrower (rf sp tax : option Q) : CostOfDebtCalculator :=
  {| ebit := None; interest_expense := None; interest_coverage_ratio := None;
     company_type := None; rating := None; spread := sp;
     risk_free_rate := rf; tax_rate := tax; cost_of_debt := None;
     synthetic_ratings_data := None |}.

(** A calculator with the two costs and the two values given. *)
Definition capital (ce cd ev dv : option Q) : WACC.WACCCalculator :=
  {| WACC.cost_of_equity := ce; WACC.cost_of_debt := cd; WACC.ticker := None;
     WACC.market_value_equity := None; WACC.market_value_debt := None;
     WACC.equity_value := ev; WACC.debt_value := dv; WACC.total_value := None;
     WACC.weight_equity := None; WACC.weight_debt := None; WACC.wacc := None;
     WACC.debt_maturity := None; WACC.interest_expense := None |}.

(** The market data provider knows one ticker. *)
Definition one_ticker (t : string) : option Q :=
  if String.eqb t "ACME" then Some 30000000000 else None.

End Samples.

(** ** More sample inputs *)

Module MoreSamples.
Import Py CostOfEquity.

(** A sheet with two accepted yield columns and an equity risk premium
    column, and the same country in both rows. *)
Definition italy_rows_before : list (list cell) :=
  [[Str "Italy"; Num 9; Num 3.5; Num 3.5]].

Definition italy_last_row : list cell := [Str " italy "; Num 9; Num 4.2; Num 4.2].

Definition italy_columns : list string := ["Country"; "Yield"; "Yield 10y"; "ERP"].

Definition two_italy_sheet : DataFrame :=
  {| columns := italy_columns; rows := italy_rows_before ++ [italy_last_row] |}.

(** A calculator whose bond table knows the United States under that name
    only, and whose premium table knows them as ["USA"]. *)
Definition american_tables : BetaCalculator :=
  {| bond_yield_data := Some {[ "UNITED STATES" := 0.04 ]};
     erp_data := Some {[ "USA" := 0.0433 ]} |}.

(** The rates once a risk-free rate of 4% is selected. *)
Definition four_percent : Capm.Rates :=
  Capm.set_risk_free 0.04 "EXCEL_USA_10Y" Capm.no_rates.

(** A bank with a market cap of 900 billion, listed under a sector that has
    no keyword in it. *)
Definition regional_bank : DebtInputs.CompanyInfo :=
  {| DebtInputs.marketCap := Some 900000000000;
     DebtInputs.sector := Some "Technology";
     DebtInputs.industry := Some "Regional BANKS" |}.

(** Data without a market cap. *)
Definition unlisted_firm : DebtInputs.CompanyInfo :=
  {| DebtInputs.marketCap := None;
     DebtInputs.sector := Some "Industrials";
     DebtInputs.industry := None |}.

(** A market data provider that knows RBK and NOCAP, gives an empty dict
    for EMPTY and raises for every other ticker. *)
Definition regional_bank_feed (t : string) : option DebtInputs.InfoDict :=
  if String.eqb t "RBK" then Some (DebtInputs.Data regional_bank)
  else if String.eqb t "NOCAP" then Some (DebtInputs.Data unlisted_firm)
  else if String.eqb t "EMPTY" then Some DebtInputs.NoData
  else None.

(** A calculator whose company type is known from an earlier call. *)
Definition company_type_known (ty : CostOfDebt.CompanyType)
  : CostOfDebt.CostOfDebtCalculator :=
  DebtInputs.set_company_type ty CostOfDebt.init.

(** A rating sheet whose data row stops after the large cap block. *)
Definition four_cell_sheet : list (list cell) :=
  [[]; []; []; [Num 0; Num 1.5; Str "D"; Num 0.1]].

(** A large cap company with the three bands loaded, a risk-free rate of
    4% and a spread left from before. *)
Definition rated_borrower (ratio : Q) (tax : option Q) : CostOfDebt.CostOfDebtCalculator :=
  {| CostOfDebt.ebit := None; CostOfDebt.interest_expense := None;
     CostOfDebt.interest_coverage_ratio := Some ratio;
     CostOfDebt.company_type := Some CostOfDebt.large_cap;
     CostOfDebt.rating := None; CostOfDebt.spread := Some 0.5;
     CostOfDebt.risk_free_rate := Some 0.04; CostOfDebt.tax_rate := tax;
     CostOfDebt.cost_of_debt := None;
     CostOfDebt.synthetic_ratings_data := Some Samples.large_cap_ratings |}.

(** The regression of two observations, as [stats.linregress] computes it:
    the line through the two points, a correlation of 1 or -1 (0 for a
    flat line), and a standard error of the slope of [0.0].  It stands for
    [stats.linregress] on two finite observations; on identical index
    returns and on the other inputs it raises. *)
Definition two_point_fit (x y : list Beta.float64)
  : Beta.call string Beta.LinregressResult :=
  match x, y with
  | [Beta.Finite x1; Beta.Finite x2], [Beta.Finite y1; Beta.Finite y2] =>
      if Py.eqb x1 x2 then Beta.Throws "ValueError"
      else
        let slope := Qred ((y2 - y1) / (x2 - x1)) in
        Beta.Gives
          {| Beta.slope := Beta.Finite slope;
             Beta.intercept := Beta.Finite (Qred (y1 - slope * x1));
             Beta.rvalue :=
               Beta.Finite (if Py.eqb y1 y2 then 0
                            else if Beta.is_negative slope then -1 else 1);
             Beta.pvalue := Beta.Finite (if Py.eqb y1 y2 then 1 else 0);
             Beta.stderr := Beta.Finite 0 |}
  | _, _ => Beta.Throws "ValueError"
  end.

(** [Series.corr] on two observations. *)
Definition two_point_corr (a b : list Beta.float64) : Beta.float64 :=
  match a, b with
  | [Beta.Finite a1; Beta.Finite a2], [Beta.Finite b1; Beta.Finite b2] =>
      if Py.eqb a1 a2 || Py.eqb b1 b2 then Beta.NaN
      else if Beta.is_negative ((a2 - a1) * (b2 - b1)) then Beta.Finite (-1)
      else Beta.Finite 1
  | _, _ => Beta.NaN
  end.

(** The returns of a stock and of an index, before [calculate_beta]. *)
Definition returns_of (stock index : list Beta.float64) : Beta.BetaEstimates :=
  {| Beta.stock_returns := Some stock; Beta.index_returns := Some index;
     Beta.beta := None; Beta.alpha := None; Beta.r_squared := None;
     Beta.correlation := None; Beta.p_value := None; Beta.std_error := None;
     Beta.t_statistic := None |}.

(** Two observations: the stock returns are twice the index returns. *)
Definition twice_the_index : Beta.BetaEstimates :=
  returns_of [Beta.Finite 0.02; Beta.Finite 0.04]
             [Beta.Finite 0.01; Beta.Finite 0.02].

(** Two observations with the same index return. *)
Definition flat_index : Beta.BetaEstimates :=
  returns_of [Beta.Finite 0.02; Beta.Finite 0.04]
             [Beta.Finite 0.01; Beta.Finite 0.01].

End MoreSamples.

(** ** A runnable instance of the builtins

    Enough of Python's builtins to run the methods on concrete inputs:
    [float] on plain decimal numerals (an optional sign, digits, an optional
    point and digits), and [**] on whole exponents.  [str] of a number is a
    stand-in that prints the fraction; no run below takes [str] of a
    number. *)

Module Runnable.

Definition digit_of (c : ascii) : option Z :=
  let n := nat_of_ascii c in
  if ((48 <=? n)%nat && (n <=? 57)%nat)%bool then Some (Z.of_nat (n - 48)) else None.

(** The digits after the point. *)
Fixpoint read_fraction (s : string) (num : Z) (den : positive) : option Q :=
  match s with
  | EmptyString => Some (num # den)
  | String c s' =>
      match digit_of c with
      | Some d => read_fraction s' (10 * num + d) (10 * den)
      | None => None
      end
  end.

(** The digits before the point; [seen] tells whether there was one. *)
Fixpoint read_digits (s : string) (num : Z) (seen : bool) : option Q :=
  match s with
  | EmptyString => if seen then Some (num # 1) else None
  | String c s' =>
      match digit_of c with
      | Some d => read_digits s' (10 * num + d) true
      | None =>
          if (Ascii.eqb c "." && seen)%bool then read_fraction s' num 1 else None
      end
  end.

Definition read_decimal (s : string) : option Q :=
  match s with
  | String "-" s' => option_map Qopp (read_digits s' 0 false)
  | String "+" s' => read_digits s' 0 false
  | _ => read_digits s 0 false
  end.

Definition show_fraction (x : Q) : string :=
  pretty (Qnum x) ++ "/" ++ pretty (Zpos (Qden x)).

Definition whole_power (b e : Q) : Q := Qpower b (Qfloor e).

Lemma whole_power_pos (b e : Q) : 0 < b -> 0 < whole_power b e.
Proof. intros Hb. unfold whole_power. now apply Qpower_0_lt. Qed.

#[export] Instance builtins : Py.Builtins :=
  {| Py.float_of_str := read_decimal;
     Py.str_of_num := show_fraction;
     Py.pow := whole_power;
     Py.pow_pos := whole_power_pos |}.

End Runnable.

(** * Properties *)

(** ** Numbers, division and prompts *)

Module PyFacts.
Import Py.

Lemma leb_le (x y : Q) : leb x y = true <-> x <= y.
Proof. unfold leb. apply Qle_bool_iff. Qed.

Lemma leb_gt (x y : Q) : leb x y = false <-> y < x.
Proof.
  unfold leb. split; intros Hxy.
  - apply Qnot_le_lt. intros Hle. apply Qle_bool_iff in Hle. congruence.
  - destruct (Qle_bool x y) eqn:E; [|reflexivity].
    apply Qle_bool_iff in E. lra.
Qed.

Lemma gtb_gt (x y : Q) : gtb x y = true <-> y < x.
Proof.
  unfold gtb. rewrite negb_true_iff. apply leb_gt.
Qed.

Lemma gtb_le (x y : Q) : gtb x y = false <-> x <= y.
Proof.
  unfold gtb. rewrite negb_false_iff. apply leb_le.
Qed.

Lemma div_by_nonzero (x y : Q) : ~ y == 0 -> div x y = Return (x / y).
Proof.
  intros Hy. unfold div, eqb.
  destruct (Qeq_bool y 0) eqn:E; [|reflexivity].
  apply Qeq_bool_iff in E. contradiction.
Qed.

Lemma div_by_zero (x y : Q) : y == 0 -> div x y = Raise ZeroDivisionError.
Proof.
  intros Hy. unfold div, eqb. apply Qeq_bool_iff in Hy. now rewrite Hy.
Qed.

Lemma ask_taken {A} (accept : string -> option A) line rest a :
  accept (strip line) = Some a -> ask accept (line :: rest) = (Return a, rest).
Proof. intros Ha. simpl. now rewrite Ha. Qed.

Lemma ask_again {A} (accept : string -> option A) line rest :
  accept (strip line) = None -> ask accept (line :: rest) = ask accept rest.
Proof. intros Ha. simpl. now rewrite Ha. Qed.

End PyFacts.

(** ** Rating assignment *)

Module RatingSpec.
Import Py PyFacts CostOfDebt Samples.

Lemma in_band_within ratio band : in_band ratio band = true <-> within ratio band.
Proof.
  unfold in_band, within. rewrite andb_true_iff, !leb_le. tauto.
Qed.

Lemma in_band_outside ratio band : in_band ratio band = false <-> ~ within ratio band.
Proof.
  rewrite <- in_band_within. destruct (in_band ratio band); split; congruence.
Qed.

(** The scan stops at the first band that contains the ratio. *)
Lemma first_band_found ratio table band :
  first_band ratio table = Some band ->
  exists before after,
    table = before ++ band :: after /\ within ratio band /\
    Forall (fun b => ~ within ratio b) before.
Proof.
  induction table as [|entry table IH]; simpl; [discriminate|].
  destruct (in_band ratio entry) eqn:E.
  - intros [= <-]. exists [], table.
    split; [reflexivity|]. split; [now apply in_band_within | constructor].
  - intros Hfound. destruct (IH Hfound) as (before & after & -> & Hin & Hout).
    exists (entry :: before), after.
    split; [reflexivity|]. split; [exact Hin|].
    constructor; [now apply in_band_outside | exact Hout].
Qed.

Lemma first_band_none ratio table :
  first_band ratio table = None <-> Forall (fun b => ~ within ratio b) table.
Proof.
  induction table as [|entry table IH]; simpl.
  - split; [intros _; constructor | reflexivity].
  - destruct (in_band ratio entry) eqn:E.
    + split; [discriminate|]. intros Hall. inversion Hall as [|? ? Hout _]; subst.
      apply in_band_within in E. contradiction.
    + rewrite IH. split.
      * intros Hall. constructor; [now apply in_band_outside | exact Hall].
      * intros Hall. now inversion Hall.
Qed.

Lemma first_band_head ratio band rest :
  within ratio band -> first_band ratio (band :: rest) = Some band.
Proof.
  intros Hin. simpl. apply in_band_within in Hin. now rewrite Hin.
Qed.

(** With the table selected and the ratio present, the method is the scan
    followed by the fallback. *)
Lemma assign_unfold self data ty ratio :
  synthetic_ratings_data self = Some data ->
  company_type self = Some ty ->
  interest_coverage_ratio self = Some ratio ->
  assign_synthetic_rating self =
    match first_band ratio (table_of data ty) with
    | Some band => (Return true, set_rating band self, Some (RatingAssignment band))
    | None =>
        match table_of data ty with
        | [] => (Raise IndexError, self, None)
        | worst :: _ =>
            (Return true, set_rating worst self, Some (OutsideNormalRange worst))
        end
    end.
Proof.
  intros Hd Ht Hr. unfold assign_synthetic_rating. now rewrite Hd, Ht, Hr.
Qed.

(** C2, as amended: on a table that is not empty, the assignment returns
    [True] and stores the rating and spread of the first band, in stored
    order, whose closed interval contains the coverage ratio; when no band
    contains it, it stores those of the first entry of the table. *)
Theorem assign_first_band_or_first_entry self data ty ratio :
  synthetic_ratings_data self = Some data ->
  company_type self = Some ty ->
  interest_coverage_ratio self = Some ratio ->
  table_of data ty <> [] ->
  exists band note,
    assign_synthetic_rating self = (Return true, set_rating band self, Some note) /\
    rating (set_rating band self) = Some (band_rating band) /\
    spread (set_rating band self) = Some (band_spread band) /\
    ((exists before after,
        table_of data ty = before ++ band :: after /\ within ratio band /\
        Forall (fun b => ~ within ratio b) before)
     \/
     (Forall (fun b => ~ within ratio b) (table_of data ty) /\
      exists rest, table_of data ty = band :: rest)).
Proof.
  intros Hd Ht Hr Hne. rewrite (assign_unfold self data ty ratio Hd Ht Hr).
  destruct (first_band ratio (table_of data ty)) as [band|] eqn:E.
  - exists band, (RatingAssignment band).
    do 3 (split; [reflexivity|]).
    left. now apply first_band_found.
  - destruct (table_of data ty) as [|worst rest] eqn:Et; [congruence|].
    exists worst, (OutsideNormalRange worst).
    do 3 (split; [reflexivity|]).
    right. split; [now apply first_band_none | now exists rest].
Qed.

(** A ratio on the boundary shared by two neighbouring bands goes to the
    earlier one. *)
Lemma shared_boundary_goes_to_earlier_band ratio before b1 b2 after :
  Forall (fun b => ~ within ratio b) before ->
  within ratio b1 -> within ratio b2 ->
  first_band ratio (before ++ b1 :: b2 :: after) = Some b1.
Proof.
  intros Hout Hin1 _. induction Hout as [|b before Hb _ IH]; simpl.
  - apply in_band_within in Hin1. now rewrite Hin1.
  - apply in_band_outside in Hb. now rewrite Hb.
Qed.

(** C5, as amended: the fallback returns [True] and stores the rating and
    spread of the first entry exactly as a match of that entry does; the
    returned value and the stored attributes carry no mark of the fallback,
    whose only trace is the warning printed. *)
Theorem fallback_has_no_mark self1 self2 data ty worst rest r1 r2 :
  synthetic_ratings_data self1 = Some data ->
  synthetic_ratings_data self2 = Some data ->
  company_type self1 = Some ty ->
  company_type self2 = Some ty ->
  table_of data ty = worst :: rest ->
  interest_coverage_ratio self1 = Some r1 ->
  Forall (fun b => ~ within r1 b) (worst :: rest) ->
  interest_coverage_ratio self2 = Some r2 ->
  within r2 worst ->
  assign_synthetic_rating self1 =
    (Return true, set_rating worst self1, Some (OutsideNormalRange worst)) /\
  assign_synthetic_rating self2 =
    (Return true, set_rating worst self2, Some (RatingAssignment worst)) /\
  rating (set_rating worst self1) = rating (set_rating worst self2) /\
  spread (set_rating worst self1) = spread (set_rating worst self2).
Proof.
  intros Hd1 Hd2 Ht1 Ht2 Htab Hr1 Hout Hr2 Hin.
  rewrite (assign_unfold self1 data ty r1 Hd1 Ht1 Hr1).
  rewrite (assign_unfold self2 data ty r2 Hd2 Ht2 Hr2).
  rewrite Htab. apply first_band_none in Hout. rewrite Hout.
  rewrite (first_band_head r2 worst rest Hin). repeat split.
Qed.

(** *** Loaded tables and the fallback *)




End RatingSpec.

(** ** Cost of debt and coverage ratio *)

Module CostOfDebtSpec.
Import Py PyFacts CostOfDebt.

(** The value [calculate_cost_of_debt] returns on present inputs. *)
Lemma calculate_cost_of_debt_value self rf sp tax :
  risk_free_rate self = Some rf ->
  spread self = Some sp ->
  tax_rate self = Some tax ->
  calculate_cost_of_debt self =
    (Some ((rf + sp) * (1 - tax)), set_cost_of_debt ((rf + sp) * (1 - tax)) self).
Proof.
  intros Hrf Hsp Htax. unfold calculate_cost_of_debt. now rewrite Hrf, Hsp, Htax.
Qed.

Lemma calculate_cost_of_debt_missing self :
  risk_free_rate self = None \/ spread self = None \/ tax_rate self = None ->
  calculate_cost_of_debt self = (None, self).
Proof.
  unfold calculate_cost_of_debt.
  intros [Hm | [Hm | Hm]]; rewrite Hm;
    destruct (risk_free_rate self), (spread self), (tax_rate self); reflexivity.
Qed.

(** C7: on present inputs the method returns and stores exactly
    [(risk_free_rate + spread) * (1 - tax_rate)], whatever their range; it
    returns [None], leaving the object as it was, when one of the three is
    absent; and on inputs between 0 and 1 the value does not decrease when
    the risk-free rate or the spread grows, and does not increase when the
    tax rate grows. *)
Theorem cost_of_debt_formula :
  (forall self rf sp tax,
     risk_free_rate self = Some rf ->
     spread self = Some sp ->
     tax_rate self = Some tax ->
     fst (calculate_cost_of_debt self) = Some ((rf + sp) * (1 - tax)) /\
     cost_of_debt (snd (calculate_cost_of_debt self)) = Some ((rf + sp) * (1 - tax))) /\
  (forall self,
     risk_free_rate self = None \/ spread self = None \/ tax_rate self = None ->
     calculate_cost_of_debt self = (None, self)) /\
  (forall self1 self2 rf1 sp1 tax1 rf2 sp2 tax2,
     risk_free_rate self1 = Some rf1 -> spread self1 = Some sp1 ->
     tax_rate self1 = Some tax1 ->
     risk_free_rate self2 = Some rf2 -> spread self2 = Some sp2 ->
     tax_rate self2 = Some tax2 ->
     0 <= rf1 <= 1 -> 0 <= sp1 <= 1 -> 0 <= tax1 <= 1 ->
     0 <= rf2 <= 1 -> 0 <= sp2 <= 1 -> 0 <= tax2 <= 1 ->
     exists c1 c2,
       fst (calculate_cost_of_debt self1) = Some c1 /\
       fst (calculate_cost_of_debt self2) = Some c2 /\
       (rf1 <= rf2 -> sp1 == sp2 -> tax1 == tax2 -> c1 <= c2) /\
       (sp1 <= sp2 -> rf1 == rf2 -> tax1 == tax2 -> c1 <= c2) /\
       (tax1 <= tax2 -> rf1 == rf2 -> sp1 == sp2 -> c2 <= c1)).
Proof.
  split; [|split].
  - intros self rf sp tax Hrf Hsp Htax.
    now rewrite (calculate_cost_of_debt_value self rf sp tax Hrf Hsp Htax).
  - exact calculate_cost_of_debt_missing.
  - intros self1 self2 rf1 sp1 tax1 rf2 sp2 tax2 Hrf1 Hsp1 Htax1 Hrf2 Hsp2 Htax2
      Brf1 Bsp1 Btax1 Brf2 Bsp2 Btax2.
    rewrite (calculate_cost_of_debt_value self1 rf1 sp1 tax1 Hrf1 Hsp1 Htax1).
    rewrite (calculate_cost_of_debt_value self2 rf2 sp2 tax2 Hrf2 Hsp2 Htax2).
    eexists _, _. split; [reflexivity|]. split; [reflexivity|].
    split; [|split].
    + intros Hle Es Et. rewrite Es, Et. nra.
    + intros Hle Er Et. rewrite Er, Et. nra.
    + intros Hle Er Es. rewrite Er, Es. nra.
Qed.

(** C8: with the EBIT and the interest expenses answered in millions, the
    coverage ratio is [ebit / interest_expense] when the interest expense
    is positive, and the sentinel 20 (with the interest expense stored as
    0) when it is zero or negative; EBIT 1500 and interest 75 give, through
    the division, the value 20 of the sentinel. *)
Theorem coverage_ratio_formula `{Builtins} self ebit_line interest_line rest
    ebit_m interest_m :
  accept_float (strip ebit_line) = Some ebit_m ->
  accept_float (strip interest_line) = Some interest_m ->
  exists self',
    get_financial_inputs self (ebit_line :: interest_line :: rest) =
      (Return true, self', rest) /\
    ebit self' = Some (ebit_m * 1000000) /\
    (0 < interest_m * 1000000 ->
     interest_expense self' = Some (interest_m * 1000000) /\
     interest_coverage_ratio self' =
       Some (ebit_m * 1000000 / (interest_m * 1000000))) /\
    (interest_m * 1000000 <= 0 ->
     interest_expense self' = Some 0 /\ interest_coverage_ratio self' = Some 20) /\
    (ebit_m == 1500 -> interest_m == 75 ->
     exists r, interest_coverage_ratio self' = Some r /\ r == 20).
Proof.
  intros He Hi. unfold get_financial_inputs.
  rewrite (ask_taken _ _ _ _ He), (ask_taken _ _ _ _ Hi).
  destruct (leb (interest_m * 1000000) 0) eqn:E.
  - apply leb_le in E. eexists. split; [reflexivity|]. split; [reflexivity|].
    split; [|split].
    + intros Hpos. lra.
    + intros _. split; reflexivity.
    + intros _ E75. rewrite E75 in E. lra.
  - apply leb_gt in E. rewrite div_by_nonzero by lra.
    eexists. split; [reflexivity|]. split; [reflexivity|].
    split; [|split].
    + intros _. split; reflexivity.
    + intros Hle. lra.
    + intros E1500 E75. eexists. split; [reflexivity|].
      rewrite E1500, E75. reflexivity.
Qed.

End CostOfDebtSpec.

(** ** WACC and the market value of debt *)

Module WACCSpec.
Import Py PyFacts WACC.

(** *** [calculate_wacc] *)

Lemma calculate_wacc_missing self :
  cost_of_equity self = None \/ cost_of_debt self = None \/
  equity_value self = None \/ debt_value self = None ->
  calculate_wacc self = (Return None, self).
Proof.
  unfold calculate_wacc.
  intros [Hm | [Hm | [Hm | Hm]]]; rewrite Hm;
    destruct (cost_of_equity self), (cost_of_debt self), (equity_value self),
      (debt_value self); reflexivity.
Qed.

Lemma calculate_wacc_divides self ce cd ev dv :
  cost_of_equity self = Some ce ->
  cost_of_debt self = Some cd ->
  equity_value self = Some ev ->
  debt_value self = Some dv ->
  ~ ev + dv == 0 ->
  calculate_wacc self =
    (Return (Some (ce * (ev / (ev + dv)) + cd * (dv / (ev + dv)))),
     weighted ce cd ev dv self).
Proof.
  intros Hce Hcd Hev Hdv Hnz. unfold calculate_wacc.
  rewrite Hce, Hcd, Hev, Hdv. rewrite !div_by_nonzero by exact Hnz. reflexivity.
Qed.

Lemma calculate_wacc_zero_total self ce cd ev dv :
  cost_of_equity self = Some ce ->
  cost_of_debt self = Some cd ->
  equity_value self = Some ev ->
  debt_value self = Some dv ->
  ev + dv == 0 ->
  calculate_wacc self = (Raise ZeroDivisionError, set_total_value (ev + dv) self).
Proof.
  intros Hce Hcd Hev Hdv Hz. unfold calculate_wacc.
  rewrite Hce, Hcd, Hev, Hdv. now rewrite div_by_zero by exact Hz.
Qed.

(** C3, as amended: [calculate_wacc] returns [None], leaving the object as
    it was, when one of the four inputs is absent; when the total value is
    zero the division raises [ZeroDivisionError]; a negative total value is
    not rejected: the method divides by it and returns the weighted sum. *)
Theorem calculate_wacc_failures :
  (forall self,
     cost_of_equity self = None \/ cost_of_debt self = None \/
     equity_value self = None \/ debt_value self = None ->
     calculate_wacc self = (Return None, self)) /\
  (forall self ce cd ev dv,
     cost_of_equity self = Some ce -> cost_of_debt self = Some cd ->
     equity_value self = Some ev -> debt_value self = Some dv ->
     (ev + dv == 0 -> fst (calculate_wacc self) = Raise ZeroDivisionError) /\
     (ev + dv < 0 ->
      fst (calculate_wacc self) =
        Return (Some (ce * (ev / (ev + dv)) + cd * (dv / (ev + dv)))))).
Proof.
  split; [exact calculate_wacc_missing|].
  intros self ce cd ev dv Hce Hcd Hev Hdv. split.
  - intros Hz. now rewrite (calculate_wacc_zero_total self ce cd ev dv).
  - intros Hneg. rewrite (calculate_wacc_divides self ce cd ev dv); try assumption.
    + reflexivity.
    + lra.
Qed.

(** C9: for positive equity and debt values the method stores
    [weight_equity = equity_value / total] and
    [weight_debt = debt_value / total] with
    [total = equity_value + debt_value]; the weights add up to 1 (exactly,
    in exact arithmetic, hence within 1e-9), and the value returned and
    stored is [cost_of_equity * weight_equity + cost_of_debt * weight_debt]. *)
Theorem wacc_weights self ce cd ev dv :
  cost_of_equity self = Some ce ->
  cost_of_debt self = Some cd ->
  equity_value self = Some ev ->
  debt_value self = Some dv ->
  0 < ev -> 0 < dv ->
  exists self' we wd,
    calculate_wacc self = (Return (Some (ce * we + cd * wd)), self') /\
    total_value self' = Some (ev + dv) /\
    weight_equity self' = Some we /\ we = ev / (ev + dv) /\
    weight_debt self' = Some wd /\ wd = dv / (ev + dv) /\
    wacc self' = Some (ce * we + cd * wd) /\
    we + wd == 1 /\
    Qabs (we + wd - 1) <= 1 / 1000000000.
Proof.
  intros Hce Hcd Hev Hdv Pev Pdv.
  assert (Hnz : ~ ev + dv == 0) by lra.
  exists (weighted ce cd ev dv self), (ev / (ev + dv)), (dv / (ev + dv)).
  split; [now apply calculate_wacc_divides|].
  do 6 (split; [reflexivity|]).
  assert (Hsum : ev / (ev + dv) + dv / (ev + dv) == 1) by (field; exact Hnz).
  split; [exact Hsum|].
  rewrite Hsum. vm_compute. discriminate.
Qed.

(** *** [get_market_values] *)

Section MarketValue.
Context `{Builtins}.

(** The divisions go through when the discount factor is positive and the
    cost of debt is not zero. *)
Lemma market_value_of_debt_value interest cod book_debt maturity :
  -1 < cod -> ~ cod == 0 ->
  market_value_of_debt interest cod book_debt maturity =
    Return (present_value interest cod book_debt maturity).
Proof.
  intros Hbase Hnz. unfold market_value_of_debt, present_value.
  rewrite (div_by_nonzero 1 (1 + cod)) by lra. simpl.
  rewrite (div_by_nonzero _ cod) by exact Hnz. simpl.
  assert (Hpow : 0 < pow (1 + cod) maturity) by (apply pow_pos; lra).
  rewrite (div_by_nonzero _ (pow (1 + cod) maturity)) by lra. reflexivity.
Qed.

Lemma market_value_of_debt_zero_cost interest cod book_debt maturity :
  cod == 0 ->
  market_value_of_debt interest cod book_debt maturity = Raise ZeroDivisionError.
Proof.
  intros Hz. unfold market_value_of_debt.
  rewrite (div_by_nonzero 1 (1 + cod)) by lra. simpl.
  now rewrite (div_by_zero _ cod) by exact Hz.
Qed.

Lemma ask_ticker_found market_cap self line rest cap :
  strip line <> "" ->
  market_cap (upper (strip line)) = Some cap ->
  ask_ticker market_cap self (line :: rest) =
    (Return tt,
     set_market_value_equity cap (set_ticker (upper (strip line)) self), rest).
Proof.
  intros Hne Hcap. simpl. apply String.eqb_neq in Hne. now rewrite Hne, Hcap.
Qed.

Lemma ask_maturity_taken self line rest m :
  accept_float (strip line) = Some m -> 0 < m ->
  ask_maturity self (line :: rest) = (Return tt, set_debt_maturity m self, rest).
Proof.
  intros Hm Hpos. simpl. rewrite Hm. apply leb_gt in Hpos. now rewrite Hpos.
Qed.

Lemma ask_maturity_again self line rest m :
  accept_float (strip line) = Some m -> m <= 0 ->
  ask_maturity self (line :: rest) = ask_maturity (set_debt_maturity m self) rest.
Proof.
  intros Hm Hle. simpl. rewrite Hm. apply leb_le in Hle. now rewrite Hle.
Qed.

Lemma get_market_values_run market_cap self ticker_line debt_line maturity_line
    interest_line rest cap debt_m maturity interest_m cod :
  strip ticker_line <> "" ->
  market_cap (upper (strip ticker_line)) = Some cap ->
  accept_float (strip debt_line) = Some debt_m ->
  accept_float (strip maturity_line) = Some maturity ->
  0 < maturity ->
  accept_float (strip interest_line) = Some interest_m ->
  cost_of_debt self = Some cod ->
  get_market_values market_cap self
    (ticker_line :: debt_line :: maturity_line :: interest_line :: rest) =
  let self' :=
    set_interest_expense (interest_m * 1000000)
      (set_debt_maturity maturity
        (set_market_value_equity cap
          (set_ticker (upper (strip ticker_line)) self))) in
  match market_value_of_debt (interest_m * 1000000) cod (debt_m * 1000000)
          maturity with
  | Raise e => (Raise e, self', rest)
  | Return v => (Return true, set_market_values v self', rest)
  end.
Proof.
  intros Hne Hcap Hdebt Hmat Hpos Hint Hcod. unfold get_market_values.
  rewrite (ask_ticker_found _ _ _ _ _ Hne Hcap).
  rewrite (ask_taken _ _ _ _ Hdebt).
  rewrite (ask_maturity_taken _ _ _ _ Hmat Hpos).
  rewrite (ask_taken _ _ _ _ Hint). simpl. rewrite Hcod. reflexivity.
Qed.

(** C6, as amended: for a cost of debt above 0 (and as well for one
    between -1 and 0, which is not rejected) the market value of debt is
    [pv_interest + pv_principal], with
    [pv_interest = interest_expense * (1 - 1/(1 + cost_of_debt)) / cost_of_debt]
    and [pv_principal = book_value_of_debt / (1 + cost_of_debt) ** maturity],
    and [get_market_values] stores it as the market value of debt and as
    the debt value; a cost of debt of 0 raises [ZeroDivisionError]; a
    maturity that is not positive is no error: the prompt stores it and
    asks again, so that only a positive maturity reaches the formula. *)
Theorem market_value_of_debt_spec :
  (forall interest cod book_debt maturity,
     -1 < cod -> ~ cod == 0 ->
     market_value_of_debt interest cod book_debt maturity =
       Return (interest * (1 - 1 / (1 + cod)) / cod
               + book_debt / pow (1 + cod) maturity)) /\
  (forall interest cod book_debt maturity,
     cod == 0 ->
     market_value_of_debt interest cod book_debt maturity =
       Raise ZeroDivisionError) /\
  (forall self line rest m,
     accept_float (strip line) = Some m -> m <= 0 ->
     ask_maturity self (line :: rest) =
       ask_maturity (set_debt_maturity m self) rest) /\
  (forall market_cap self ticker_line debt_line maturity_line interest_line rest
          cap debt_m maturity interest_m cod,
     strip ticker_line <> "" ->
     market_cap (upper (strip ticker_line)) = Some cap ->
     accept_float (strip debt_line) = Some debt_m ->
     accept_float (strip maturity_line) = Some maturity ->
     0 < maturity ->
     accept_float (strip interest_line) = Some interest_m ->
     cost_of_debt self = Some cod ->
     0 < cod ->
     exists self',
       get_market_values market_cap self
         (ticker_line :: debt_line :: maturity_line :: interest_line :: rest) =
         (Return true, self', rest) /\
       market_value_debt self' =
         Some (present_value (interest_m * 1000000) cod (debt_m * 1000000)
                 maturity) /\
       debt_value self' = market_value_debt self' /\
       equity_value self' = Some cap).
Proof.
  split; [exact market_value_of_debt_value|].
  split; [exact market_value_of_debt_zero_cost|].
  split; [exact ask_maturity_again|].
  intros market_cap self ticker_line debt_line maturity_line interest_line rest
    cap debt_m maturity interest_m cod Hne Hcap Hdebt Hmat Hpos Hint Hcod Hcpos.
  rewrite (get_market_values_run market_cap self ticker_line debt_line
             maturity_line interest_line rest cap debt_m maturity interest_m cod)
    by assumption.
  cbv zeta. rewrite market_value_of_debt_value by lra.
  eexists. split; [reflexivity|]. repeat split.
Qed.

End MarketValue.
End WACCSpec.

(** ** Bond yield and equity risk premium tables *)

Module CostOfEquitySpec.
Import Py PyFacts CostOfEquity Samples.

Section Rows.
Context `{Builtins}.

(** What each loader stores for a row with a country name and a number. *)
Lemma bond_row_stores df yield_column data row country v :
  at_column df row "Country" = Str country ->
  at_column df row yield_column = Num v ->
  bond_row df yield_column data row =
    <[upper (strip country) := if gtb v 1 then v / 100 else v]> data.
Proof.
  intros Hc Hv. unfold bond_row. now rewrite Hc, Hv.
Qed.

Lemma erp_row_stores df erp_column data row country v :
  at_column df row "Country" = Str country ->
  at_column df row erp_column = Num v ->
  erp_row df erp_column data row = <[upper (strip country) := v]> data.
Proof.
  intros Hc Hv. unfold erp_row. now rewrite Hc, Hv.
Qed.

(** The two loaders store the same key, and the same value as long as the
    number is at most 1. *)
Lemma loaders_agree_up_to_one df column data row country v :
  at_column df row "Country" = Str country ->
  at_column df row column = Num v ->
  v <= 1 ->
  bond_row df column data row = erp_row df column data row.
Proof.
  intros Hc Hv Hle.
  rewrite (bond_row_stores df column data row country v Hc Hv).
  rewrite (erp_row_stores df column data row country v Hc Hv).
  apply gtb_le in Hle. now rewrite Hle.
Qed.

(** Above 1 they part: the bond loader stores the hundredth, the equity
    risk premium loader the number as it stands. *)
Lemma loaders_differ_above_one df column data row country v :
  at_column df row "Country" = Str country ->
  at_column df row column = Num v ->
  1 < v ->
  bond_row df column data row !! upper (strip country) = Some (v / 100) /\
  erp_row df column data row !! upper (strip country) = Some v /\
  ~ v / 100 == v.
Proof.
  intros Hc Hv Hgt.
  rewrite (bond_row_stores df column data row country v Hc Hv).
  rewrite (erp_row_stores df column data row country v Hc Hv).
  apply gtb_gt in Hgt as Hb. rewrite Hb, !lookup_insert_eq.
  repeat split. intros Heq.
  assert (Hv100 : v / 100 == v * (1 # 100)) by (field).
  rewrite Hv100 in Heq. lra.
Qed.

End Rows.

(** C1, at the input on which it fails: the same raw row, the percentage
    5.5 for Italy, is stored by the bond yield loader as the fraction
    5.5 / 100 and by the equity risk premium loader as 5.5, both under the
    key ["ITALY"]. *)
Theorem erp_loader_keeps_percentage `{Builtins} :
  load_bond_yield_data (Some (italy_sheet "Yield 10y")) init =
    (true, {| bond_yield_data := Some {[ "ITALY" := 5.5 / 100 ]};
              erp_data := None |}) /\
  load_erp_data (Some (italy_sheet "Total Equity Risk Premium")) init =
    (true, {| bond_yield_data := None;
              erp_data := Some {[ "ITALY" := 5.5 ]} |}) /\
  ~ 5.5 / 100 == 5.5.
Proof.
  split; [|split].
  - vm_compute. reflexivity.
  - vm_compute. reflexivity.
  - intros Heq. vm_compute in Heq. discriminate.
Qed.

End CostOfEquitySpec.

(** ** The beta regression *)

Module BetaSpec.
Import Py Beta.

Lemma true_divide_by_zero b s :
  s == 0 ->
  (0 < b -> true_divide (Finite b) (Finite s) = Infinity false) /\
  (b < 0 -> true_divide (Finite b) (Finite s) = Infinity true) /\
  (b == 0 -> true_divide (Finite b) (Finite s) = NaN).
Proof.
  intros Hs. unfold true_divide, is_negative, eqb, gtb.
  apply Qeq_bool_iff in Hs. rewrite Hs.
  split; [|split]; intros Hb.
  - destruct (Qeq_bool b 0) eqn:E; [apply Qeq_bool_iff in E; lra|].
    destruct (Qle_bool 0 b) eqn:L; [reflexivity|].
    assert (Hle : 0 <= b) by lra. apply Qle_bool_iff in Hle. congruence.
  - destruct (Qeq_bool b 0) eqn:E; [apply Qeq_bool_iff in E; lra|].
    destruct (Qle_bool 0 b) eqn:L; [apply Qle_bool_iff in L; lra | reflexivity].
  - apply Qeq_bool_iff in Hb. now rewrite Hb.
Qed.

(** C4, as amended: [calculate_beta] has no check of a degenerate
    regression.  With the two return series present, an exception of
    [stats.linregress] leaves the method as it is, with no attribute
    assigned; otherwise the method returns [True] with the slope stored as
    beta whatever it is, [nan] included, and with the t-statistic
    [slope / std_err] computed without a guard: with a standard error of
    zero it is plus infinity for a positive slope, minus infinity for a
    negative one and [nan] for a slope of zero. *)
Theorem calculate_beta_has_no_degenerate_check {E}
    (linregress : list float64 -> list float64 -> call E LinregressResult)
    (corr : list float64 -> list float64 -> float64) self stock index :
  stock_returns self = Some stock ->
  index_returns self = Some index ->
  let combined_data := dropna (List.combine stock index) in
  let x := map snd combined_data in
  let y := map fst combined_data in
  (forall e, linregress x y = Throws e ->
     calculate_beta linregress corr self = (Throws e, self)) /\
  (forall fit, linregress x y = Gives fit ->
     exists self',
       calculate_beta linregress corr self = (Gives true, self') /\
       beta self' = Some (slope fit) /\
       alpha self' = Some (intercept fit) /\
       r_squared self' = Some (square (rvalue fit)) /\
       p_value self' = Some (pvalue fit) /\
       std_error self' = Some (stderr fit) /\
       t_statistic self' = Some (true_divide (slope fit) (stderr fit)) /\
       (forall b s, slope fit = Finite b -> stderr fit = Finite s -> s == 0 ->
          (0 < b -> t_statistic self' = Some (Infinity false)) /\
          (b < 0 -> t_statistic self' = Some (Infinity true)) /\
          (b == 0 -> t_statistic self' = Some NaN)) /\
       (slope fit = NaN ->
          beta self' = Some NaN /\ t_statistic self' = Some NaN)).
Proof.
  intros Hstock Hindex combined_data x y. subst x y combined_data.
  unfold calculate_beta. rewrite Hstock, Hindex. split.
  - intros e He. now rewrite He.
  - intros fit Hfit. rewrite Hfit. eexists. split; [reflexivity|].
    cbn [beta alpha r_squared p_value std_error t_statistic].
    do 6 (split; [reflexivity|]). split.
    + intros b s Hb Hs Hz. rewrite Hb, Hs.
      destruct (true_divide_by_zero b s Hz) as (Hpos & Hneg & Hzero).
      split; [|split]; intros Hx; f_equal; auto.
    + intros Hnan. rewrite Hnan. split; reflexivity.
Qed.

(** Without one of the two return series the method returns [False] and
    assigns nothing. *)
Lemma calculate_beta_without_returns {E}
    (linregress : list float64 -> list float64 -> call E LinregressResult)
    (corr : list float64 -> list float64 -> float64) self :
  stock_returns self = None \/ index_returns self = None ->
  calculate_beta linregress corr self = (Gives false, self).
Proof.
  unfold calculate_beta. intros [Hn | Hn]; rewrite Hn; [reflexivity|].
  now destruct (stock_returns self).
Qed.

End BetaSpec.

(** ** Runs on concrete inputs *)

(** *** Rating assignment *)

Module RatingRuns.
Import Py PyFacts Runnable CostOfDebt Samples RatingSpec.

Example boundary_ratio_gets_D : rated (company large_cap 1.5) = (Some "D", Some 0.10).
Proof. reflexivity. Qed.

Example ratio_two_gets_B : rated (company large_cap 2) = (Some "B", Some 0.05).
Proof. reflexivity. Qed.

Example negative_ratio_falls_back_to_D :
  rated (company large_cap (-1)) = (Some "D", Some 0.10).
Proof. reflexivity. Qed.

(** C2 fails on an empty table: no band contains the ratio, and the
    assignment raises [IndexError] instead of returning a first entry. *)
Lemma assign_on_empty_table_raises :
  table_of large_cap_ratings small_cap = [] /\
  assign_synthetic_rating (company small_cap (-1)) =
    (Raise IndexError, company small_cap (-1), None).
Proof. split; reflexivity. Qed.

(** The boundary ratio 1.5 on the three bands. *)
Lemma assign_first_band_witness :
  exists band note,
    assign_synthetic_rating (company large_cap 1.5) =
      (Return true, set_rating band (company large_cap 1.5), Some note) /\
    rating (set_rating band (company large_cap 1.5)) = Some (band_rating band) /\
    spread (set_rating band (company large_cap 1.5)) = Some (band_spread band) /\
    ((exists before after,
        three_bands = before ++ band :: after /\ within 1.5 band /\
        Forall (fun b => ~ within 1.5 b) before)
     \/
     (Forall (fun b => ~ within 1.5 b) three_bands /\
      exists rest, three_bands = band :: rest)).
Proof.
  apply (assign_first_band_or_first_entry (company large_cap 1.5)
           large_cap_ratings large_cap 1.5);
    [reflexivity | reflexivity | reflexivity | discriminate].
Defined.

(** C5 fails: the ratio -1, which no band contains, and the ratio 1, which
    band D contains, give the same returned value and the same stored
    rating and spread. *)
Lemma fallback_looks_like_a_match :
  first_band (-1) three_bands = None /\
  first_band 1 three_bands = Some band_D /\
  fst (fst (assign_synthetic_rating (company large_cap (-1)))) = Return true /\
  fst (fst (assign_synthetic_rating (company large_cap 1))) = Return true /\
  rated (company large_cap (-1)) = rated (company large_cap 1).
Proof. repeat split. Qed.

(** No band of the table contains -1, and band D contains 1. *)
Lemma outside_three_bands : Forall (fun b => ~ within (-1) b) three_bands.
Proof.
  repeat constructor; unfold within; simpl; intros [Hlo Hhi]; lra.
Defined.

Lemma one_within_D : within 1 band_D.
Proof. unfold within; simpl; split; lra. Defined.

(** The ratios -1 and 1 on the three bands. *)
Lemma fallback_has_no_mark_witness :
  assign_synthetic_rating (company large_cap (-1)) =
    (Return true, set_rating band_D (company large_cap (-1)),
     Some (OutsideNormalRange band_D)) /\
  assign_synthetic_rating (company large_cap 1) =
    (Return true, set_rating band_D (company large_cap 1),
     Some (RatingAssignment band_D)) /\
  rating (set_rating band_D (company large_cap (-1))) =
    rating (set_rating band_D (company large_cap 1)) /\
  spread (set_rating band_D (company large_cap (-1))) =
    spread (set_rating band_D (company large_cap 1)).
Proof.
  apply (fallback_has_no_mark (company large_cap (-1)) (company large_cap 1)
           large_cap_ratings large_cap band_D (tl three_bands) (-1) 1);
    try reflexivity.
  - exact outside_three_bands.
  - exact one_within_D.
Defined.


End RatingRuns.

(** *** Cost of debt and coverage ratio *)

Module CostOfDebtRuns.
Import Py PyFacts Runnable CostOfDebt Samples CostOfDebtSpec.

Example cost_of_debt_run :
  fst (calculate_cost_of_debt (borrower (Some 0.04) (Some 0.02) (Some 0.25))) =
    Some ((0.04 + 0.02) * (1 - 0.25)).
Proof. reflexivity. Qed.

Example cost_of_debt_not_clamped :
  fst (calculate_cost_of_debt (borrower (Some 2) (Some (-3)) (Some 1.5))) =
    Some ((2 + -3) * (1 - 1.5)).
Proof. reflexivity. Qed.

(** A missing spread, and a risk-free rate raised from 4% to 5%. *)
Lemma cost_of_debt_formula_witness :
  calculate_cost_of_debt (borrower (Some 0.04) None (Some 0.25)) =
    (None, borrower (Some 0.04) None (Some 0.25)) /\
  exists c1 c2,
    fst (calculate_cost_of_debt (borrower (Some 0.04) (Some 0.02) (Some 0.25))) =
      Some c1 /\
    fst (calculate_cost_of_debt (borrower (Some 0.05) (Some 0.02) (Some 0.25))) =
      Some c2 /\
    c1 <= c2.
Proof.
  destruct cost_of_debt_formula as (_ & Hmissing & Hmono).
  split.
  - apply Hmissing. right. left. reflexivity.
  - destruct (Hmono (borrower (Some 0.04) (Some 0.02) (Some 0.25))
                (borrower (Some 0.05) (Some 0.02) (Some 0.25))
                0.04 0.02 0.25 0.05 0.02 0.25
                eq_refl eq_refl eq_refl eq_refl eq_refl eq_refl)
      as (c1 & c2 & H1 & H2 & Hrf & _); try (split; discriminate).
    exists c1, c2. split; [exact H1|]. split; [exact H2|].
    apply Hrf; [discriminate | reflexivity | reflexivity].
Defined.

(** The answers 1500 and 75. *)
Lemma coverage_ratio_witness :
  exists self',
    get_financial_inputs init ["1500"; " 75 "] = (Return true, self', []) /\
    interest_expense self' = Some (75 * 1000000) /\
    interest_coverage_ratio self' = Some (1500 * 1000000 / (75 * 1000000)) /\
    exists r, interest_coverage_ratio self' = Some r /\ r == 20.
Proof.
  destruct (coverage_ratio_formula (H := builtins) init "1500" " 75 " [] 1500 75
              eq_refl eq_refl)
    as (self' & Hrun & _ & Hpos & _ & H20).
  exists self'. split; [exact Hrun|].
  destruct Hpos as [Hi Hr]; [reflexivity|].
  split; [exact Hi|]. split; [exact Hr|].
  apply H20; reflexivity.
Defined.

Example sentinel_run :
  interest_coverage_ratio (snd (fst (get_financial_inputs init ["1500"; "0"]))) =
    Some 20.
Proof. reflexivity. Qed.

Example unreadable_answers_are_asked_again :
  get_financial_inputs init [""; "abc"; "1500"; "  "; "75"] =
  get_financial_inputs init ["1500"; "75"].
Proof. reflexivity. Qed.

End CostOfDebtRuns.

(** *** WACC and the market value of debt *)

Module WACCRuns.
Import Py PyFacts Runnable Samples WACC WACCSpec.

(** C3 fails on a negative total value: with a book equity of -3000 and a
    debt of 1000 (millions) the total is not positive, and the method
    divides by it and returns a value. *)
Lemma negative_total_is_divided :
  -3000000000 + 1000000000 <= 0 /\
  fst (calculate_wacc
         (capital (Some 0.10) (Some 0.05) (Some (-3000000000)) (Some 1000000000))) =
    Return (Some (0.10 * (-3000000000 / (-3000000000 + 1000000000))
                  + 0.05 * (1000000000 / (-3000000000 + 1000000000)))).
Proof. split; [discriminate | reflexivity]. Qed.

(** A missing cost of debt, and a total value of zero. *)
Lemma calculate_wacc_failures_witness :
  calculate_wacc (capital (Some 0.10) None (Some 3) (Some 1)) =
    (Return None, capital (Some 0.10) None (Some 3) (Some 1)) /\
  fst (calculate_wacc (capital (Some 0.10) (Some 0.05) (Some (-1)) (Some 1))) =
    Raise ZeroDivisionError.
Proof.
  destruct calculate_wacc_failures as (Hmissing & Hpresent).
  split.
  - apply Hmissing. right. left. reflexivity.
  - apply (Hpresent (capital (Some 0.10) (Some 0.05) (Some (-1)) (Some 1))
             0.10 0.05 (-1) 1 eq_refl eq_refl eq_refl eq_refl).
    reflexivity.
Defined.

(** Equity 3 and debt 1. *)
Lemma wacc_weights_witness :
  exists self' we wd,
    calculate_wacc (capital (Some 0.10) (Some 0.05) (Some 3) (Some 1)) =
      (Return (Some (0.10 * we + 0.05 * wd)), self') /\
    total_value self' = Some (3 + 1) /\
    weight_equity self' = Some we /\ we = 3 / (3 + 1) /\
    weight_debt self' = Some wd /\ wd = 1 / (3 + 1) /\
    wacc self' = Some (0.10 * we + 0.05 * wd) /\
    we + wd == 1 /\
    Qabs (we + wd - 1) <= 1 / 1000000000.
Proof.
  apply (wacc_weights (capital (Some 0.10) (Some 0.05) (Some 3) (Some 1))
           0.10 0.05 3 1); reflexivity.
Defined.

(** C6 fails outside its precondition: a cost of debt of -1/2 is not
    rejected, the formula returns a value; and the maturities -2 and 0 are
    no error either, the prompt asks again and the run succeeds with the
    maturity 8. *)
Lemma nonpositive_inputs_do_not_fail :
  (exists v, market_value_of_debt 500000000 (-1 # 2) 15000000000 2 = Return v /\
             v == 61000000000) /\
  exists self',
    get_market_values one_ticker (capital None (Some 0.05) None None)
      ["acme"; "15000"; "-2"; "0"; "8"; "500"] = (Return true, self', []) /\
    debt_maturity self' = Some 8.
Proof.
  split.
  - eexists. split; [reflexivity|]. reflexivity.
  - eexists. split; reflexivity.
Qed.

(** A cost of debt of zero, and a run with every answer taken at once. *)
Lemma market_value_of_debt_witness :
  market_value_of_debt 500000000 0 15000000000 8 = Raise ZeroDivisionError /\
  exists self',
    get_market_values one_ticker (capital None (Some 0.05) None None)
      ["acme"; "15000"; "8"; "500"] = (Return true, self', []) /\
    market_value_debt self' =
      Some (present_value (500 * 1000000) 0.05 (15000 * 1000000) 8) /\
    debt_value self' = market_value_debt self' /\
    equity_value self' = Some 30000000000.
Proof.
  destruct (market_value_of_debt_spec (H := builtins)) as (_ & Hzero & _ & Hrun).
  split.
  - apply Hzero. reflexivity.
  - apply (Hrun one_ticker (capital None (Some 0.05) None None)
             "acme" "15000" "8" "500" [] 30000000000 15000 8 500 0.05);
      try reflexivity.
    discriminate.
Defined.

End WACCRuns.

(** *** The beta regression *)

Module BetaRuns.
Import Py Beta MoreSamples BetaSpec.

Lemma calculate_beta_has_no_degenerate_check_witness :
  exists self',
    calculate_beta two_point_fit two_point_corr twice_the_index =
      (Gives true, self') /\
    beta self' = Some (Finite 2) /\
    std_error self' = Some (Finite 0) /\
    t_statistic self' = Some (Infinity false).
Proof.
  destruct (calculate_beta_has_no_degenerate_check two_point_fit two_point_corr
              twice_the_index
              [Finite 0.02; Finite 0.04] [Finite 0.01; Finite 0.02]
              eq_refl eq_refl) as [_ Hfit].
  destruct (Hfit {| slope := Finite 2; intercept := Finite 0; rvalue := Finite 1;
                    pvalue := Finite 0; stderr := Finite 0 |} eq_refl)
    as (self' & Hrun & Hbeta & _ & _ & _ & Hse & _ & Hzero & _).
  exists self'. split; [exact Hrun|]. split; [exact Hbeta|]. split; [exact Hse|].
  destruct (Hzero 2 0 eq_refl eq_refl ltac:(reflexivity)) as (Hpos & _).
  apply Hpos. reflexivity.
Defined.

(** C4 fails on a standard error of zero: with two observations the
    regression gives a slope of 2 and a standard error of 0, the method
    returns [True] and the t-statistic stored is an infinity, with nothing
    raised and nothing marked. *)
Lemma zero_standard_error_gives_unflagged_infinity :
  calculate_beta two_point_fit two_point_corr twice_the_index =
    (Gives true,
     {| stock_returns := Some [Finite 0.02; Finite 0.04];
        index_returns := Some [Finite 0.01; Finite 0.02];
        beta := Some (Finite 2);
        alpha := Some (Finite 0);
        r_squared := Some (Finite (1 * 1));
        correlation := Some (Finite 1);
        p_value := Some (Finite 0);
        std_error := Some (Finite 0);
        t_statistic := Some (Infinity false) |}).
Proof. reflexivity. Qed.

(** Identical index returns: what the regression raises leaves
    [calculate_beta] as it is. *)
Example identical_index_returns_are_not_checked :
  calculate_beta two_point_fit two_point_corr flat_index =
    (Throws "ValueError", flat_index).
Proof. reflexivity. Qed.

End BetaRuns.

(** * Further properties *)

(** ** Strings and prompts *)

Module TextFacts.
Import Py PyText PyFacts.

Ltac by_cases_on_char c :=
  destruct c as [[] [] [] [] [] [] [] []]; reflexivity.

Lemma upper_char_idempotent c : upper_char (upper_char c) = upper_char c.
Proof. by_cases_on_char c. Qed.

Lemma upper_lower_char c : upper_char (lower_char c) = upper_char c.
Proof. by_cases_on_char c. Qed.

Lemma lower_upper_char c : lower_char (upper_char c) = lower_char c.
Proof. by_cases_on_char c. Qed.

Lemma isspace_upper_char c : isspace (upper_char c) = isspace c.
Proof. by_cases_on_char c. Qed.

Lemma upper_idempotent s : upper (upper s) = upper s.
Proof.
  induction s as [|c s IH]; simpl; [reflexivity|].
  now rewrite upper_char_idempotent, IH.
Qed.

Lemma upper_lower s : upper (lower s) = upper s.
Proof.
  induction s as [|c s IH]; simpl; [reflexivity|].
  now rewrite upper_lower_char, IH.
Qed.

Lemma lower_upper s : lower (upper s) = lower s.
Proof.
  induction s as [|c s IH]; simpl; [reflexivity|].
  now rewrite lower_upper_char, IH.
Qed.

Lemma lower_app a b : lower (a ++ b)%string = (lower a ++ lower b)%string.
Proof.
  induction a as [|c a IH]; simpl; [reflexivity|]. now rewrite IH.
Qed.

(** [upper] goes through [strip]. *)
Lemma lstrip_upper s : lstrip (upper s) = upper (lstrip s).
Proof.
  induction s as [|c s IH]; simpl; [reflexivity|].
  rewrite isspace_upper_char. destruct (isspace c); [exact IH | reflexivity].
Qed.

Lemma rstrip_upper s : rstrip (upper s) = upper (rstrip s).
Proof.
  induction s as [|c s IH]; simpl; [reflexivity|].
  rewrite IH, isspace_upper_char.
  destruct (rstrip s); simpl; [destruct (isspace c)|]; reflexivity.
Qed.

Lemma strip_upper s : strip (upper s) = upper (strip s).
Proof. unfold strip. now rewrite lstrip_upper, rstrip_upper. Qed.

(** What [rstrip] leaves is empty or ends in a character that is not white
    space, so that stripping it again changes nothing. *)
Lemma rstrip_idempotent s : rstrip (rstrip s) = rstrip s.
Proof.
  induction s as [|c s IH]; simpl; [reflexivity|].
  destruct (rstrip s) as [|d r] eqn:E.
  - destruct (isspace c) eqn:Ec; simpl; [reflexivity | now rewrite Ec].
  - simpl in *. destruct (rstrip r) as [|d' r'] eqn:Er.
    + destruct (isspace d) eqn:Ed; [discriminate|]. now rewrite IH.
    + now rewrite IH.
Qed.

(** What [lstrip] leaves is empty or starts with a character that is not
    white space. *)
Lemma lstrip_head s :
  match lstrip s with
  | EmptyString => True
  | String c _ => isspace c = false
  end.
Proof.
  induction s as [|c s IH]; simpl; [exact I|].
  destruct (isspace c) eqn:E; [exact IH | exact E].
Qed.

Lemma lstrip_fixed s :
  match s with EmptyString => True | String c _ => isspace c = false end ->
  lstrip s = s.
Proof. destruct s as [|c s]; simpl; [reflexivity|]. now intros ->. Qed.

(** [rstrip] keeps the first character of a string that starts with a
    character that is not white space. *)
Lemma rstrip_head s :
  match s with EmptyString => True | String c _ => isspace c = false end ->
  match rstrip s with EmptyString => True | String c _ => isspace c = false end.
Proof.
  destruct s as [|c s]; simpl; [trivial|]. intros Hc.
  destruct (rstrip s); [now rewrite Hc | exact Hc].
Qed.

Lemma strip_idempotent s : strip (strip s) = strip s.
Proof.
  unfold strip.
  rewrite (lstrip_fixed (rstrip (lstrip s))).
  - apply rstrip_idempotent.
  - apply rstrip_head, lstrip_head.
Qed.

(** The key under which the loaders store a country is left as it is by
    [strip] and by [upper]. *)
Lemma key_is_normal s :
  upper (upper (strip s)) = upper (strip s) /\
  strip (upper (strip s)) = upper (strip s).
Proof.
  split; [apply upper_idempotent|].
  now rewrite strip_upper, strip_idempotent.
Qed.

(** [p in a + p + b] *)
Lemma prefix_app p b : String.prefix p (p ++ b)%string = true.
Proof.
  induction p as [|c p IH]; simpl; [destruct b; reflexivity|].
  destruct (ascii_dec c c); [exact IH | congruence].
Qed.

Lemma contains_prefix p s : String.prefix p s = true -> contains p s = true.
Proof. intros Hp. destruct s; simpl in *; rewrite Hp; reflexivity. Qed.

Lemma contains_app a p b : contains p (a ++ p ++ b)%string = true.
Proof.
  induction a as [|c a IH].
  - exact (contains_prefix p (p ++ b) (prefix_app p b)).
  - simpl. rewrite IH. apply orb_true_r.
Qed.

(** *** The prompt loop *)

(** A prompt loop ends in two ways: an answer is taken, after answers that
    were not, or the answers run out. *)
Lemma ask_outcome {A} (accept : string -> option A) stdin :
  (exists skipped line rest a,
     stdin = skipped ++ line :: rest /\
     Forall (fun l => accept (strip l) = None) skipped /\
     accept (strip line) = Some a /\
     ask accept stdin = (Return a, rest)) \/
  (Forall (fun l => accept (strip l) = None) stdin /\
   ask accept stdin = (Raise EOFError, [])).
Proof.
  induction stdin as [|line stdin IH]; simpl.
  - right. split; [constructor | reflexivity].
  - destruct (accept (strip line)) as [a|] eqn:E.
    + left. exists [], line, stdin, a. repeat split; [constructor | exact E].
    + destruct IH as [(skipped & l & rest & a & -> & Hsk & Ha & Hask) | [Hall Hask]].
      * left. exists (line :: skipped), l, rest, a.
        repeat split; [constructor; assumption | exact Ha | exact Hask].
      * right. split; [constructor; assumption | exact Hask].
Qed.

Lemma accept_percent_range `{Builtins} lo hi s x :
  accept_percent lo hi s = Some x -> lo <= x /\ x <= hi.
Proof.
  unfold accept_percent. destruct (accept_float s) as [y|]; [|discriminate].
  destruct (leb lo y && leb y hi) eqn:E; [|discriminate].
  intros [= <-]. apply andb_true_iff in E as [Hlo Hhi].
  now rewrite !leb_le in *.
Qed.

End TextFacts.

(** ** The country tables *)

Module TableProps.
Import Py PyText PyFacts TextFacts CostOfEquity.

Lemma fold_left_invariant {A B} (P : A -> Prop) (f : A -> B -> A) l a :
  P a -> (forall a b, In b l -> P a -> P (f a b)) -> P (fold_left f l a).
Proof.
  revert a. induction l as [|b l IH]; simpl; intros a Ha Hstep; [exact Ha|].
  apply IH.
  - apply Hstep; [now left | exact Ha].
  - intros a' b' Hin. apply Hstep. now right.
Qed.

Lemma find_column_none df possible :
  find_column df possible = None <->
  Forall (fun c => has_column df c = false) possible.
Proof.
  unfold find_column. induction possible as [|c possible IH]; simpl.
  - split; [intros _; constructor | reflexivity].
  - destruct (has_column df c) eqn:E.
    + split; [discriminate|]. intros Hall. inversion Hall; congruence.
    + rewrite IH. split.
      * intros Hall. now constructor.
      * intros Hall. now inversion Hall.
Qed.

(** The value column is the first name of the list of accepted names that
    the header has. *)
Lemma find_column_first df possible c :
  find_column df possible = Some c ->
  exists before after,
    possible = before ++ c :: after /\
    has_column df c = true /\
    Forall (fun x => has_column df x = false) before.
Proof.
  unfold find_column. induction possible as [|x possible IH]; simpl; [discriminate|].
  destruct (has_column df x) eqn:E.
  - intros [= <-]. exists [], possible.
    split; [reflexivity|]. split; [exact E | constructor].
  - intros Hfind. destruct (IH Hfind) as (before & after & -> & Hc & Hb).
    exists (x :: before), after.
    split; [reflexivity|]. split; [exact Hc | now constructor].
Qed.

Section Loaders.
Context `{Builtins}.

Lemma bond_loader_fails file self :
  fst (load_bond_yield_data file self) = false <->
  file = None \/
  exists df, file = Some df /\
    (has_column df "Country" = false \/
     Forall (fun c => has_column df c = false) possible_yield_columns).
Proof.
  unfold load_bond_yield_data.
  destruct file as [df|]; [|split; [now left | reflexivity]].
  destruct (has_column df "Country") eqn:Ec; cbn [negb].
  - destruct (find_column df possible_yield_columns) eqn:Ey; cbn [fst].
    + split; [intros Hx; discriminate Hx|].
      intros [Hf | (df' & Hdf & [Hf | Hf])]; [congruence | |];
        injection Hdf as <-; [congruence|].
      apply find_column_none in Hf. congruence.
    + split; [|reflexivity]. intros _. right. exists df.
      split; [reflexivity|]. right. now apply find_column_none.
  - split; [|reflexivity]. intros _. right. exists df.
    split; [reflexivity | now left].
Qed.

Lemma erp_loader_fails file self :
  fst (load_erp_data file self) = false <->
  file = None \/
  exists df, file = Some df /\
    (has_column df "Country" = false \/
     Forall (fun c => has_column df c = false) possible_erp_columns).
Proof.
  unfold load_erp_data.
  destruct file as [df|]; [|split; [now left | reflexivity]].
  destruct (has_column df "Country") eqn:Ec; cbn [negb].
  - destruct (find_column df possible_erp_columns) eqn:Ey; cbn [fst].
    + split; [intros Hx; discriminate Hx|].
      intros [Hf | (df' & Hdf & [Hf | Hf])]; [congruence | |];
        injection Hdf as <-; [congruence|].
      apply find_column_none in Hf. congruence.
    + split; [|reflexivity]. intros _. right. exists df.
      split; [reflexivity|]. right. now apply find_column_none.
  - split; [|reflexivity]. intros _. right. exists df.
    split; [reflexivity | now left].
Qed.

(** Both loaders return [False] exactly when the file is missing, the
    header has no ['Country'] column, or it has none of the accepted value
    columns; the object is then left as it was. *)
Theorem loaders_fail_unchanged file self :
  (fst (load_bond_yield_data file self) = false <->
   file = None \/
   exists df, file = Some df /\
     (has_column df "Country" = false \/
      Forall (fun c => has_column df c = false) possible_yield_columns)) /\
  (fst (load_erp_data file self) = false <->
   file = None \/
   exists df, file = Some df /\
     (has_column df "Country" = false \/
      Forall (fun c => has_column df c = false) possible_erp_columns)) /\
  (fst (load_bond_yield_data file self) = false ->
   snd (load_bond_yield_data file self) = self) /\
  (fst (load_erp_data file self) = false ->
   snd (load_erp_data file self) = self).
Proof.
  split; [apply bond_loader_fails|]. split; [apply erp_loader_fails|].
  unfold load_bond_yield_data, load_erp_data.
  destruct file as [df|]; [|split; reflexivity].
  destruct (has_column df "Country"); cbn [negb]; [|split; reflexivity].
  destruct (find_column df possible_yield_columns),
    (find_column df possible_erp_columns); cbn [fst snd];
    split; try reflexivity; intros Hx; discriminate Hx.
Qed.

(** What the bond loader stores for a raw number. *)
Definition normalised (v : Q) : Q := if gtb v 1 then v / 100 else v.

Lemma normalised_range v : 0 <= v -> v <= 100 -> 0 <= normalised v /\ normalised v <= 1.
Proof.
  intros Hlo Hhi. unfold normalised. destruct (gtb v 1) eqn:E.
  - apply gtb_gt in E. split.
    + apply Qle_shift_div_l; lra.
    + apply Qle_shift_div_r; lra.
  - apply gtb_le in E. lra.
Qed.

(** The table the bond loader builds from the rows of a sheet. *)
Definition bond_table (df : DataFrame) (yield_column : string) : gmap string Q :=
  fold_left (bond_row df yield_column) (rows df) ∅.

Definition erp_table (df : DataFrame) (erp_column : string) : gmap string Q :=
  fold_left (erp_row df erp_column) (rows df) ∅.

Lemma keys_are_normal df column k :
  (is_Some (bond_table df column !! k) \/ is_Some (erp_table df column !! k)) ->
  upper k = k /\ strip k = k.
Proof.
  assert (Hins : forall (data : gmap string Q) c v,
             (forall k, is_Some (data !! k) -> upper k = k /\ strip k = k) ->
             forall k, is_Some (<[upper (strip c) := v]> data !! k) ->
                       upper k = k /\ strip k = k).
  { intros data c v Hdata k' Hk. destruct (decide (upper (strip c) = k')) as [<-|Hne].
    - apply key_is_normal.
    - rewrite lookup_insert_ne in Hk by exact Hne. now apply Hdata. }
  intros [Hk | Hk]; revert k Hk.
  - unfold bond_table.
    apply (fold_left_invariant
             (fun data : gmap string Q =>
                forall k, is_Some (data !! k) -> upper k = k /\ strip k = k)).
    + intros k Hk. rewrite lookup_empty in Hk. now destruct Hk.
    + intros data row _ Hdata. unfold bond_row.
      destruct (notna _ && notna _); [|exact Hdata].
      destruct (float_of_cell _); [|exact Hdata]. now apply Hins.
  - unfold erp_table.
    apply (fold_left_invariant
             (fun data : gmap string Q =>
                forall k, is_Some (data !! k) -> upper k = k /\ strip k = k)).
    + intros k Hk. rewrite lookup_empty in Hk. now destruct Hk.
    + intros data row _ Hdata. unfold erp_row.
      destruct (notna _ && notna _); [|exact Hdata].
      destruct (float_of_cell _); [|exact Hdata]. now apply Hins.
Qed.

Lemma bond_yields_are_fractions df column :
  (forall row v, In row (rows df) ->
     float_of_cell (at_column df row column) = Some v -> 0 <= v /\ v <= 100) ->
  forall k y, bond_table df column !! k = Some y -> 0 <= y /\ y <= 1.
Proof.
  intros Hrows. unfold bond_table.
  apply (fold_left_invariant
           (fun data : gmap string Q =>
              forall k y, data !! k = Some y -> 0 <= y /\ y <= 1)).
  - intros k y Hk. now rewrite lookup_empty in Hk.
  - intros data row Hin Hdata. unfold bond_row.
    destruct (notna _ && notna _); [|exact Hdata].
    destruct (float_of_cell (at_column df row column)) as [v|] eqn:Ev;
      [|exact Hdata].
    intros k y. destruct (decide (upper (strip (str_of_cell (at_column df row "Country"))) = k)) as [<-|Hne].
    + rewrite lookup_insert_eq. intros [= <-].
      destruct (Hrows row v Hin Ev) as [Hlo Hhi].
      now apply normalised_range.
    + rewrite lookup_insert_ne by exact Hne. apply Hdata.
Qed.

Lemma last_row_decides (cols : list string) column before row country v :
  at_column {| columns := cols; rows := before ++ [row] |} row "Country" = Str country ->
  at_column {| columns := cols; rows := before ++ [row] |} row column = Num v ->
  bond_table {| columns := cols; rows := before ++ [row] |} column
    !! upper (strip country) = Some (normalised v) /\
  erp_table {| columns := cols; rows := before ++ [row] |} column
    !! upper (strip country) = Some v.
Proof.
  intros Hc Hv. unfold bond_table, erp_table. simpl rows.
  rewrite !fold_left_app. simpl.
  unfold bond_row at 1. unfold erp_row at 1. rewrite Hc, Hv. simpl.
  now rewrite !lookup_insert_eq.
Qed.

(** What a loader that returns [True] has done. *)
Lemma bond_loader_succeeds file self :
  fst (load_bond_yield_data file self) = true ->
  exists df column,
    file = Some df /\ has_column df "Country" = true /\
    find_column df possible_yield_columns = Some column /\
    bond_yield_data (snd (load_bond_yield_data file self)) =
      Some (bond_table df column) /\
    erp_data (snd (load_bond_yield_data file self)) = erp_data self.
Proof.
  unfold load_bond_yield_data.
  destruct file as [df|]; [|intros Hx; discriminate Hx].
  destruct (has_column df "Country") eqn:Ec; cbn [negb];
    [|intros Hx; discriminate Hx].
  destruct (find_column df possible_yield_columns) as [column|] eqn:Ey;
    [|intros Hx; discriminate Hx].
  intros _. exists df, column. repeat split; assumption.
Qed.

Lemma erp_loader_succeeds file self :
  fst (load_erp_data file self) = true ->
  exists df column,
    file = Some df /\ has_column df "Country" = true /\
    find_column df possible_erp_columns = Some column /\
    erp_data (snd (load_erp_data file self)) = Some (erp_table df column) /\
    bond_yield_data (snd (load_erp_data file self)) = bond_yield_data self.
Proof.
  unfold load_erp_data.
  destruct file as [df|]; [|intros Hx; discriminate Hx].
  destruct (has_column df "Country") eqn:Ec; cbn [negb];
    [|intros Hx; discriminate Hx].
  destruct (find_column df possible_erp_columns) as [column|] eqn:Ey;
    [|intros Hx; discriminate Hx].
  intros _. exists df, column. repeat split; assumption.
Qed.

(** A loader that returns [True] has replaced its own table and left the
    other one as it was; the value column it read is the first of the
    accepted names that the header has. *)
Theorem loaders_read_first_accepted_column file self :
  (fst (load_bond_yield_data file self) = true ->
   exists df column before after,
     file = Some df /\
     possible_yield_columns = before ++ column :: after /\
     has_column df column = true /\
     Forall (fun c => has_column df c = false) before /\
     bond_yield_data (snd (load_bond_yield_data file self)) =
       Some (fold_left (bond_row df column) (rows df) ∅) /\
     erp_data (snd (load_bond_yield_data file self)) = erp_data self) /\
  (fst (load_erp_data file self) = true ->
   exists df column before after,
     file = Some df /\
     possible_erp_columns = before ++ column :: after /\
     has_column df column = true /\
     Forall (fun c => has_column df c = false) before /\
     erp_data (snd (load_erp_data file self)) =
       Some (fold_left (erp_row df column) (rows df) ∅) /\
     bond_yield_data (snd (load_erp_data file self)) = bond_yield_data self).
Proof.
  split; intros Hok.
  - destruct (bond_loader_succeeds file self Hok)
      as (df & column & -> & _ & Hfind & Htab & Hother).
    destruct (find_column_first df _ column Hfind) as (before & after & Hp & Hc & Hb).
    exists df, column, before, after. repeat split; assumption.
  - destruct (erp_loader_succeeds file self Hok)
      as (df & column & -> & _ & Hfind & Htab & Hother).
    destruct (find_column_first df _ column Hfind) as (before & after & Hp & Hc & Hb).
    exists df, column, before, after. repeat split; assumption.
Qed.

(** Every key of a loaded table is in upper case and has no white space
    around it, so that a lookup by the upper case of a stripped answer can
    reach it. *)
Theorem loaded_keys_are_normal file self data k :
  (fst (load_bond_yield_data file self) = true /\
   bond_yield_data (snd (load_bond_yield_data file self)) = Some data) \/
  (fst (load_erp_data file self) = true /\
   erp_data (snd (load_erp_data file self)) = Some data) ->
  is_Some (data !! k) ->
  upper k = k /\ strip k = k.
Proof.
  intros [[Hok Hdata] | [Hok Hdata]] Hk.
  - destruct (bond_loader_succeeds file self Hok)
      as (df & column & _ & _ & _ & Htab & _).
    rewrite Htab in Hdata. injection Hdata as <-.
    apply (keys_are_normal df column k). now left.
  - destruct (erp_loader_succeeds file self Hok)
      as (df & column & _ & _ & _ & Htab & _).
    rewrite Htab in Hdata. injection Hdata as <-.
    apply (keys_are_normal df column k). now right.
Qed.

(** When every number that the accepted yield columns hold is between 0
    and 100, every yield of the loaded table is between 0 and 1. *)
Theorem loaded_yields_are_fractions df self data :
  (forall column row v,
     In column possible_yield_columns -> In row (rows df) ->
     float_of_cell (at_column df row column) = Some v -> 0 <= v /\ v <= 100) ->
  bond_yield_data (snd (load_bond_yield_data (Some df) self)) = Some data ->
  fst (load_bond_yield_data (Some df) self) = true ->
  forall k y, data !! k = Some y -> 0 <= y /\ y <= 1.
Proof.
  intros Hrows Hdata Hok.
  destruct (bond_loader_succeeds (Some df) self Hok)
    as (df' & column & Hdf & _ & Hfind & Htab & _).
  injection Hdf as <-. rewrite Htab in Hdata. injection Hdata as <-.
  apply bond_yields_are_fractions. intros row v Hin Hv.
  apply (Hrows column row v); [|exact Hin | exact Hv].
  destruct (find_column_first df _ column Hfind) as (before & after & Hp & _).
  rewrite Hp. apply in_or_app. right. now left.
Qed.

(** Duplicate countries: a key holds what the last row gave it.  When the
    last row of the sheet has a country name and a number, the bond loader
    stores the number, divided by 100 if above 1, and the equity risk
    premium loader the number itself, under the upper case of the stripped
    name, whatever the rows before hold. *)
Theorem last_row_wins (cols : list string) before row country v self :
  let df := {| columns := cols; rows := before ++ [row] |} in
  forall bond_column erp_column,
  find_column df possible_yield_columns = Some bond_column ->
  find_column df possible_erp_columns = Some erp_column ->
  at_column df row "Country" = Str country ->
  at_column df row bond_column = Num v ->
  at_column df row erp_column = Num v ->
  exists yields premiums,
    load_bond_yield_data (Some df) self =
      (true, {| bond_yield_data := Some yields; erp_data := erp_data self |}) /\
    yields !! upper (strip country) = Some (if gtb v 1 then v / 100 else v) /\
    load_erp_data (Some df) self =
      (true, {| bond_yield_data := bond_yield_data self;
                erp_data := Some premiums |}) /\
    premiums !! upper (strip country) = Some v.
Proof.
  intros df bond_column erp_column Hb He Hc Hvb Hve.
  assert (Hcountry : has_column df "Country" = true).
  { unfold has_column. unfold at_column in Hc.
    destruct (index_of "Country" (columns df)); [reflexivity | discriminate]. }
  unfold load_bond_yield_data, load_erp_data. rewrite Hcountry, Hb, He.
  cbn [negb]. eexists _, _.
  split; [reflexivity|]. split.
  - apply (last_row_decides cols bond_column before row country v Hc Hvb).
  - split; [reflexivity|].
    apply (last_row_decides cols erp_column before row country v Hc Hve).
Qed.

End Loaders.
End TableProps.

(** ** Country lookups and CAPM *)

Module CapmProps.
Import Py PyText PyFacts TextFacts CostOfEquity Capm.

Lemma first_present_found alts (data : gmap string Q) v :
  first_present alts data = Some v ->
  exists before alt after,
    alts = before ++ alt :: after /\ data !! alt = Some v /\
    Forall (fun a => data !! a = None) before.
Proof.
  induction alts as [|a alts IH]; simpl; [discriminate|].
  destruct (data !! a) as [w|] eqn:E.
  - intros [= <-]. exists [], a, alts. repeat split; [exact E | constructor].
  - intros Hf. destruct (IH Hf) as (before & alt & after & -> & Halt & Hb).
    exists (a :: before), alt, after. repeat split; [exact Halt | now constructor].
Qed.

Lemma first_present_none alts (data : gmap string Q) :
  first_present alts data = None <-> Forall (fun a => data !! a = None) alts.
Proof.
  induction alts as [|a alts IH]; simpl.
  - split; [intros _; constructor | reflexivity].
  - destruct (data !! a) eqn:E.
    + split; [intros Hx; discriminate Hx|]. intros Hall. inversion Hall. congruence.
    + rewrite IH. split; [now constructor | intros Hall; now inversion Hall].
Qed.

(** The names tried for a country: its own, then its alternatives. *)
Definition names_tried (table : list (string * list string)) (country_upper : string)
  : list string :=
  country_upper ::
  match assoc country_upper table with
  | Some alts => alts
  | None => []
  end.

(** The bond yield of a country is that of the first name present in the
    table among the upper case of the country and, after it, its
    alternatives; so the lookup does not depend on the case of the name,
    and a name that has no alternatives (as ["US"], which is only an
    alternative of others) is found under its own key only. *)
Theorem bond_yield_lookup self data country :
  bond_yield_data self = Some data ->
  get_bond_yield_from_excel self country =
    first_present (names_tried bond_country_alternatives (upper country)) data /\
  get_bond_yield_from_excel self (upper country) =
    get_bond_yield_from_excel self country /\
  get_bond_yield_from_excel self (lower country) =
    get_bond_yield_from_excel self country /\
  (assoc (upper country) bond_country_alternatives = None ->
   get_bond_yield_from_excel self country = data !! upper country).
Proof.
  intros Hd. unfold get_bond_yield_from_excel, names_tried. rewrite Hd.
  rewrite upper_idempotent, upper_lower.
  split; [|split; [reflexivity|split; [reflexivity|]]].
  - cbn [first_present]. destruct (data !! upper country); [reflexivity|].
    now destruct (assoc (upper country) bond_country_alternatives).
  - intros ->. now destruct (data !! upper country).
Qed.

(** A table that knows the United States under one of the names asked for
    in turn answers for ["USA"]: an exact key first, then
    ["UNITED STATES"], ["US"] and ["AMERICA"]. *)
Theorem usa_resolves_by_alias self data country y :
  bond_yield_data self = Some data ->
  upper country = "USA" ->
  data !! "USA" = None ->
  data !! "UNITED STATES" = Some y ->
  get_bond_yield_from_excel self country = Some y.
Proof.
  intros Hd Hu Hno Hy. unfold get_bond_yield_from_excel.
  rewrite Hd, Hu, Hno. simpl. now rewrite Hy.
Qed.

(** *** [detect_country_from_index] *)

Lemma assoc_found {A} k (d : list (string * A)) v :
  assoc k d = Some v -> In (k, v) d.
Proof.
  induction d as [|[k' v'] d IH]; simpl; [discriminate|].
  destruct (String.eqb_spec k k') as [->|Hne].
  - intros [= ->]. now left.
  - intros Hf. right. now apply IH.
Qed.

(** The detection does not depend on the case of the symbol, and a symbol
    that has [".MI"] in it is Italian, whatever else it holds. *)
Theorem detect_country_by_symbol index_symbol :
  detect_country_from_index (upper index_symbol) =
    detect_country_from_index index_symbol /\
  detect_country_from_index (lower index_symbol) =
    detect_country_from_index index_symbol /\
  (contains ".MI" (upper index_symbol) = true ->
   detect_country_from_index index_symbol = Some "Italy").
Proof.
  unfold detect_country_from_index. rewrite upper_idempotent, upper_lower.
  split; [reflexivity|]. split; [reflexivity|].
  intros Hc.
  destruct (assoc (upper index_symbol) index_country_map) as [country|] eqn:E.
  - apply assoc_found in E. simpl in E.
    repeat (destruct E as [E | E];
            [injection E as E1 E2; rewrite <- E1 in Hc; vm_compute in Hc;
             first [discriminate Hc | now rewrite <- E2] |]).
    destruct E.
  - unfold alternative_patterns, first_pattern.
    change (upper ".MI") with ".MI". now rewrite Hc.
Qed.

(** *** [get_equity_risk_premium] *)

Lemma first_alternative_found alternatives country_upper (data : gmap string Q) v :
  first_alternative alternatives country_upper data = Some v ->
  exists key, data !! key = Some v.
Proof.
  induction alternatives as [|[name alts] alternatives IH]; simpl; [discriminate|].
  destruct (String.eqb country_upper name); [|exact IH].
  destruct (first_present alts data) as [w|] eqn:E; [|exact IH].
  intros [= <-]. destruct (first_present_found alts data w E)
    as (_ & alt & _ & _ & Halt & _).
  now exists alt.
Qed.

(** The equity risk premium stored is only ever a value of the table: a
    lookup that returns a premium has stored that premium, which some key
    of the table holds; a lookup that returns [None] leaves the premium
    stored before as it was.  The detected country is overwritten in both
    cases, once a table is loaded. *)
Theorem equity_risk_premium_from_table self rates index_symbol data :
  erp_data self = Some data ->
  detected_country (snd (get_equity_risk_premium self rates index_symbol)) =
    detect_country_from_index index_symbol /\
  (forall erp,
     fst (get_equity_risk_premium self rates index_symbol) = Some erp ->
     equity_risk_premium (snd (get_equity_risk_premium self rates index_symbol)) =
       Some erp /\
     exists key, data !! key = Some erp) /\
  (fst (get_equity_risk_premium self rates index_symbol) = None ->
   equity_risk_premium (snd (get_equity_risk_premium self rates index_symbol)) =
     equity_risk_premium rates).
Proof.
  intros Hd. unfold get_equity_risk_premium. rewrite Hd.
  cbn [detected_country set_detected_country].
  destruct (detect_country_from_index index_symbol) as [country|].
  2: { split; [reflexivity|]. split; [intros erp Hx; discriminate Hx|].
       intros _. reflexivity. }
  destruct (data !! upper country) as [e|] eqn:E.
  - split; [reflexivity|]. split; [|intros Hx; discriminate Hx].
    intros erp [= <-]. split; [reflexivity | now exists (upper country)].
  - destruct (first_alternative erp_country_alternatives (upper country) data)
      as [e|] eqn:Ea.
    + split; [reflexivity|]. split; [|intros Hx; discriminate Hx].
      intros erp [= <-]. split; [reflexivity|].
      now apply (first_alternative_found _ _ _ _ Ea).
    + split; [reflexivity|]. split; [intros erp Hx; discriminate Hx|].
      intros _. reflexivity.
Qed.

(** *** CAPM *)

(** With a beta and a risk-free rate, the cost of equity is exactly
    [rf + beta * premium]: the premium passed to the method is the one used,
    whatever premium is stored, and the stored one is used when none is
    passed.  Nothing is clamped: under a premium that is not negative the
    result does not decrease when beta grows, and a negative beta under a
    positive premium puts it below the risk-free rate. *)
Theorem capm_ordering rates rf :
  current_risk_free_rate rates = Some rf ->
  (forall b p,
     calculate_cost_of_equity (Some b) rates (Some p) = Some (rf + b * p)) /\
  (forall b erp, equity_risk_premium rates = Some erp ->
     calculate_cost_of_equity (Some b) rates None = Some (rf + b * erp)) /\
  (forall b1 b2 p c1 c2, 0 <= p -> b1 <= b2 ->
     calculate_cost_of_equity (Some b1) rates (Some p) = Some c1 ->
     calculate_cost_of_equity (Some b2) rates (Some p) = Some c2 ->
     c1 <= c2) /\
  (forall b p c, b < 0 -> 0 < p ->
     calculate_cost_of_equity (Some b) rates (Some p) = Some c ->
     c < rf).
Proof.
  intros Hrf. unfold calculate_cost_of_equity. rewrite Hrf.
  split; [reflexivity|]. split; [intros b erp ->; reflexivity|]. split.
  - intros b1 b2 p c1 c2 Hp Hb [= <-] [= <-]. nra.
  - intros b p c Hb Hp [= <-]. nra.
Qed.

(** A premium found by [get_equity_risk_premium] is the one that
    [calculate_cost_of_equity] uses when it is called without a premium. *)
Theorem looked_up_premium_is_used self rates index_symbol erp rf b :
  fst (get_equity_risk_premium self rates index_symbol) = Some erp ->
  current_risk_free_rate rates = Some rf ->
  calculate_cost_of_equity (Some b)
    (snd (get_equity_risk_premium self rates index_symbol)) None =
    Some (rf + b * erp).
Proof.
  unfold get_equity_risk_premium. intros Hfound Hrf.
  destruct (erp_data self) as [data|]; [|discriminate Hfound].
  cbn [detected_country set_detected_country] in *.
  destruct (detect_country_from_index index_symbol) as [country|];
    [|discriminate Hfound].
  destruct (data !! upper country) as [e|].
  - injection Hfound as ->. unfold calculate_cost_of_equity. simpl.
    now rewrite Hrf.
  - destruct (first_alternative erp_country_alternatives (upper country) data)
      as [e|]; [|discriminate Hfound].
    injection Hfound as ->. unfold calculate_cost_of_equity. simpl.
    now rewrite Hrf.
Qed.


(** *** [select_bond_country_from_excel] *)

Lemma bond_yield_is_in_table self data country y :
  bond_yield_data self = Some data ->
  get_bond_yield_from_excel self country = Some y ->
  exists key, data !! key = Some y.
Proof.
  intros Hd. unfold get_bond_yield_from_excel. rewrite Hd.
  destruct (data !! upper country) as [v|] eqn:E.
  - intros [= <-]. now exists (upper country).
  - destruct (assoc (upper country) bond_country_alternatives) as [alts|];
      [|intros Hx; discriminate Hx].
    intros Hf. destruct (first_present_found alts data y Hf)
      as (_ & alt & _ & _ & Halt & _).
    now exists alt.
Qed.

Lemma ask_bond_country_outcome self data rates n stdin :
  bond_yield_data self = Some data ->
  (length stdin <= n)%nat ->
  (exists y sym rest,
     ask_bond_country self rates stdin =
       (Return (Some y), set_risk_free y sym rates, rest) /\
     exists key, data !! key = Some y) \/
  (exists rest, ask_bond_country self rates stdin = (Return None, rates, rest)) \/
  ask_bond_country self rates stdin = (Raise EOFError, rates, []).
Proof.
  intros Hd. revert stdin. induction n as [|n IH]; intros stdin Hlen.
  - destruct stdin; [|simpl in Hlen; lia]. right. right. reflexivity.
  - destruct stdin as [|line rest]; [right; right; reflexivity|].
    simpl in Hlen. cbn [ask_bond_country].
    destruct (String.eqb (strip line) "").
    + apply IH. lia.
    + destruct (get_bond_yield_from_excel self (strip line)) as [y|] eqn:Ey.
      * left. eexists y, _, rest. split; [reflexivity|].
        now apply (bond_yield_is_in_table self data (strip line)).
      * destruct rest as [|retry rest']; [right; right; reflexivity|].
        destruct (says_no retry).
        -- right. left. now exists rest'.
        -- apply IH. simpl in Hlen. lia.
Qed.

(** The risk-free rate chosen from the bond table is a yield of the table,
    stored as the current and as the average rate; the rates are left as
    they were when the user gives up (or no table is loaded) and when the
    answers run out. *)
Theorem bond_country_selection self rates stdin :
  (exists y sym rest data,
     select_bond_country_from_excel self rates stdin =
       (Return (Some y), set_risk_free y sym rates, rest) /\
     bond_yield_data self = Some data /\
     exists key, data !! key = Some y) \/
  (exists rest,
     select_bond_country_from_excel self rates stdin = (Return None, rates, rest)) \/
  select_bond_country_from_excel self rates stdin = (Raise EOFError, rates, []).
Proof.
  unfold select_bond_country_from_excel.
  destruct (bond_yield_data self) as [data|] eqn:Hd.
  - destruct (ask_bond_country_outcome self data rates (length stdin) stdin Hd
                (Nat.le_refl _))
      as [(y & sym & rest & Hrun & Hkey) | [Hno | Heof]].
    + left. exists y, sym, rest, data. repeat split; assumption.
    + right. now left.
    + right. now right.
  - right. left. now exists stdin.
Qed.

End CapmProps.

(** ** Company type, risk-free rate, tax rate and coverage *)

Module DebtProps.
Import Py PyText PyFacts TextFacts CostOfDebt DebtInputs.

Lemma any_keyword_found keyword a b :
  In keyword financial_keywords ->
  any_keyword (a ++ keyword ++ b)%string = true.
Proof.
  intros Hin. unfold any_keyword. apply existsb_exists.
  exists keyword. split; [exact Hin | apply contains_app].
Qed.

(** A company whose sector or industry has one of the keywords in it, in
    any case and at any place, is of type financial whatever its market
    cap; a company that is not financial is a large cap above a market cap
    of 5,000,000,000 and a small cap up to it.  The ticker is stored in
    upper case before the lookup, the data and the market cap as soon as
    they are read: when the lookup raises, when it gives no data and when
    the data has no market cap, the method returns [False] with
    [company_type] and the other attributes of the calculator as they were,
    and with the assignments made up to there kept (the ticker; the ticker
    and the empty data; the ticker, the data and a market cap of [None]). *)
Theorem company_type_by_keyword_then_size stock_info ticker_symbol self company :
  (forall info cap text keyword a b,
     stock_info (upper ticker_symbol) = Some (Data info) ->
     marketCap info = Some cap ->
     sector info = Some text \/ industry info = Some text ->
     In keyword financial_keywords ->
     lower text = (a ++ keyword ++ b)%string ->
     get_company_info stock_info ticker_symbol self company =
       (true, set_company_type financial self,
        {| ticker := Some (upper ticker_symbol);
           company_info := Some (Data info);
           market_cap := Some cap;
           is_financial_firm := Some true |})) /\
  (forall info cap,
     stock_info (upper ticker_symbol) = Some (Data info) ->
     marketCap info = Some cap ->
     is_financial info = false ->
     get_company_info stock_info ticker_symbol self company =
       (true,
        set_company_type (if gtb cap 5000000000 then large_cap else small_cap) self,
        {| ticker := Some (upper ticker_symbol);
           company_info := Some (Data info);
           market_cap := Some cap;
           is_financial_firm := Some false |}) /\
     (5000000000 < cap <-> gtb cap 5000000000 = true)) /\
  (stock_info (upper ticker_symbol) = None ->
     get_company_info stock_info ticker_symbol self company =
       (false, self,
        {| ticker := Some (upper ticker_symbol);
           company_info := company_info company;
           market_cap := market_cap company;
           is_financial_firm := is_financial_firm company |})) /\
  (stock_info (upper ticker_symbol) = Some NoData ->
     get_company_info stock_info ticker_symbol self company =
       (false, self,
        {| ticker := Some (upper ticker_symbol);
           company_info := Some NoData;
           market_cap := market_cap company;
           is_financial_firm := is_financial_firm company |})) /\
  (forall info,
     stock_info (upper ticker_symbol) = Some (Data info) ->
     marketCap info = None ->
     get_company_info stock_info ticker_symbol self company =
       (false, self,
        {| ticker := Some (upper ticker_symbol);
           company_info := Some (Data info);
           market_cap := None;
           is_financial_firm := is_financial_firm company |})).
Proof.
  unfold get_company_info. split; [|split; [|split; [|split]]].
  - intros info cap text keyword a b Hinfo Hcap Htext Hin Hlow.
    rewrite Hinfo, Hcap.
    assert (Hfin : is_financial info = true).
    { unfold is_financial. apply orb_true_iff.
      destruct Htext as [Hs | Hi]; [left; rewrite Hs | right; rewrite Hi];
        simpl; rewrite Hlow; now apply any_keyword_found. }
    now rewrite Hfin.
  - intros info cap Hinfo Hcap Hfin. rewrite Hinfo, Hcap, Hfin.
    split; [reflexivity|]. symmetry. apply gtb_gt.
  - intros Hinfo. now rewrite Hinfo.
  - intros Hinfo. now rewrite Hinfo.
  - intros info Hinfo Hcap. now rewrite Hinfo, Hcap.
Qed.

Section Prompts.
Context `{Builtins}.

(** The tax rate stored is a fraction between 0 and 0.6; when the answers
    run out before one is taken, [EOFError] is raised and nothing is
    stored. *)
Theorem tax_rate_range self stdin :
  (exists tax rest,
     get_tax_rate self stdin = (Return true, set_tax_rate tax self, rest) /\
     0 <= tax /\ tax <= 3 / 5) \/
  get_tax_rate self stdin = (Raise EOFError, self, []).
Proof.
  unfold get_tax_rate.
  destruct (ask_outcome (accept_percent 0 60) stdin)
    as [(skipped & line & rest & x & _ & _ & Hx & ->) | [_ ->]].
  - left. exists (x / 100), rest. split; [reflexivity|].
    apply accept_percent_range in Hx as [Hlo Hhi]. split.
    + apply Qle_shift_div_l; [reflexivity|]. lra.
    + apply Qle_shift_div_r; [reflexivity|].
      assert (E : 3 / 5 * 100 == 60) by reflexivity. rewrite E. exact Hhi.
  - now right.
Qed.

(** [get_financial_inputs] never divides by zero: it returns [True] with
    an interest expense that is not negative, the sentinel 20 when that
    expense is 0 and [ebit / interest_expense] otherwise, or it raises
    [EOFError] when the answers run out. *)
Theorem financial_inputs_outcome self stdin :
  (exists self' rest e i r,
     get_financial_inputs self stdin = (Return true, self', rest) /\
     ebit self' = Some e /\ interest_expense self' = Some i /\
     interest_coverage_ratio self' = Some r /\
     0 <= i /\
     (i == 0 -> r = 20) /\ (0 < i -> r = e / i)) \/
  (exists self', get_financial_inputs self stdin = (Raise EOFError, self', [])).
Proof.
  unfold get_financial_inputs.
  destruct (ask_outcome accept_float stdin)
    as [(skipped & line & rest & x & _ & _ & _ & ->) | [_ ->]];
    [|right; now eexists].
  destruct (ask_outcome accept_float rest)
    as [(skipped' & line' & rest' & y & _ & _ & _ & ->) | [_ ->]];
    [|right; now eexists].
  left. destruct (leb (y * 1000000) 0) eqn:E.
  - eexists _, rest', (x * 1000000), 0, 20.
    split; [reflexivity|]. repeat split; try reflexivity.
    + lra.
    + intros Hpos. lra.
  - apply leb_gt in E. rewrite div_by_nonzero by lra.
    eexists _, rest', (x * 1000000), (y * 1000000), _.
    split; [reflexivity|]. repeat split; try reflexivity.
    + lra.
    + intros Hz. lra.
Qed.

End Prompts.

(** *** [select_risk_free_rate] *)

Lemma lookup_country_in_table (data : gmap string Q) country_upper y :
  lookup_country data country_upper = Some y -> exists key, data !! key = Some y.
Proof.
  unfold lookup_country. destruct (data !! country_upper) as [v|] eqn:E.
  - intros [= <-]. now exists country_upper.
  - destruct (assoc country_upper country_alternatives) as [alts|];
      [|intros Hx; discriminate Hx].
    intros Hf. destruct (CapmProps.first_present_found alts data y Hf)
      as (_ & alt & _ & _ & Halt & _).
    now exists alt.
Qed.

Lemma ask_country_outcome data self n stdin :
  (length stdin <= n)%nat ->
  (exists y rest,
     ask_country data self stdin = (Return true, set_risk_free_rate y self, rest) /\
     exists key, data !! key = Some y) \/
  (exists rest, ask_country data self stdin = (Return false, self, rest)) \/
  ask_country data self stdin = (Raise EOFError, self, []).
Proof.
  revert stdin. induction n as [|n IH]; intros stdin Hlen.
  - destruct stdin; [|simpl in Hlen; lia]. right. right. reflexivity.
  - destruct stdin as [|line rest]; [right; right; reflexivity|].
    simpl in Hlen. cbn [ask_country].
    destruct (String.eqb (strip line) "").
    + apply IH. lia.
    + destruct (lookup_country data (upper (strip line))) as [y|] eqn:Ey.
      * left. exists y, rest. split; [reflexivity|].
        now apply (lookup_country_in_table data (upper (strip line))).
      * destruct rest as [|retry rest']; [right; right; reflexivity|].
        destruct (Capm.says_no retry).
        -- right. left. now exists rest'.
        -- apply IH. simpl in Hlen. lia.
Qed.

(** The risk-free rate stored is a yield of the bond table; the object is
    left as it was when the method returns [False] (no table, or the user
    gives up) and when the answers run out. *)
Theorem risk_free_rate_selection bond_yield_data self stdin :
  (exists y rest data,
     select_risk_free_rate bond_yield_data self stdin =
       (Return true, set_risk_free_rate y self, rest) /\
     bond_yield_data = Some data /\
     exists key, data !! key = Some y) \/
  (exists rest,
     select_risk_free_rate bond_yield_data self stdin = (Return false, self, rest)) \/
  select_risk_free_rate bond_yield_data self stdin = (Raise EOFError, self, []).
Proof.
  unfold select_risk_free_rate. destruct bond_yield_data as [data|].
  - destruct (ask_country_outcome data self (length stdin) stdin (Nat.le_refl _))
      as [(y & rest & Hrun & Hkey) | [Hno | Heof]].
    + left. exists y, rest, data. repeat split; assumption.
    + right. now left.
    + right. now right.
  - right. left. now exists stdin.
Qed.

(** From the sheet to the rate: when the last row of the bond sheet names a
    country with a number, answering with that name, in any case and with
    any white space around it, selects the yield that the loader stored
    for it. *)
Theorem loaded_country_can_be_selected `{Builtins} (cols : list string) before row
    country v old self answer rest column :
  let df := {| columns := cols; rows := before ++ [row] |} in
  CostOfEquity.find_column df CostOfEquity.possible_yield_columns = Some column ->
  at_column df row "Country" = Str country ->
  at_column df row column = Num v ->
  strip answer <> "" ->
  upper (strip answer) = upper (strip country) ->
  fst (DebtTables.load_bond_yield_data (Some df) old) = true /\
  select_risk_free_rate (snd (DebtTables.load_bond_yield_data (Some df) old))
    self (answer :: rest) =
    (Return true, set_risk_free_rate (if gtb v 1 then v / 100 else v) self, rest).
Proof.
  intros df Hfind Hc Hv Hne Hkey. subst df.
  set (df := {| columns := cols; rows := before ++ [row] |}) in *.
  assert (Hcountry : has_column df "Country" = true).
  { unfold has_column. unfold at_column in Hc.
    destruct (index_of "Country" (columns df)); [reflexivity | discriminate]. }
  pose proof (TableProps.last_row_decides cols column before row country v Hc Hv)
    as [Hlast _].
  unfold TableProps.bond_table in Hlast. fold df in Hlast.
  unfold DebtTables.load_bond_yield_data. rewrite Hcountry, Hfind. cbn [negb fst snd].
  split; [reflexivity|].
  unfold select_risk_free_rate. cbn [ask_country].
  apply String.eqb_neq in Hne. rewrite Hne.
  unfold lookup_country. rewrite Hkey, Hlast. reflexivity.
Qed.

End DebtProps.

(** ** Rating sheets and the rating pipeline *)

Module RatingProps.
Import Py PyText PyFacts CostOfDebt RatingSpec RatingSheets.

Section Sheets.
Context `{Builtins}.

Lemma read_block_of_row b0 b1 b2 :
  read_block (sheet_row (b0, b1, b2)) 0 = Return b0 /\
  read_block (sheet_row (b0, b1, b2)) 5 = Return b1 /\
  read_block (sheet_row (b0, b1, b2)) 10 = Return b2.
Proof.
  destruct b0 as [[]|], b1 as [[]|], b2 as [[]|]; repeat split.
Qed.

Lemma load_row_of_row b0 b1 b2 data :
  load_row (sheet_row (b0, b1, b2)) data =
    (append_opt financial b2 (append_opt small_cap b1 (append_opt large_cap b0 data)),
     None).
Proof.
  unfold load_row.
  destruct (read_block_of_row b0 b1 b2) as (-> & -> & ->). reflexivity.
Qed.

Lemma append_opt_tables ty b data :
  large_cap_table (append_opt ty b data) =
    large_cap_table data ++
    match ty, b with large_cap, Some band => [band] | _, _ => [] end /\
  small_cap_table (append_opt ty b data) =
    small_cap_table data ++
    match ty, b with small_cap, Some band => [band] | _, _ => [] end /\
  financial_table (append_opt ty b data) =
    financial_table data ++
    match ty, b with financial, Some band => [band] | _, _ => [] end.
Proof.
  destruct ty, b as [band|]; simpl; now rewrite ?app_nil_r.
Qed.

Lemma load_rows_of_rows bands data :
  exists data',
    load_rows (map sheet_row bands) data = (data', None) /\
    large_cap_table data' = large_cap_table data ++ omap (fun b => b.1.1) bands /\
    small_cap_table data' = small_cap_table data ++ omap (fun b => b.1.2) bands /\
    financial_table data' = financial_table data ++ omap (fun b => b.2) bands.
Proof.
  revert data. induction bands as [|[[b0 b1] b2] bands IH]; intros data.
  - exists data. simpl. now rewrite !app_nil_r.
  - cbn [map load_rows]. rewrite load_row_of_row.
    destruct (IH (append_opt financial b2
                    (append_opt small_cap b1 (append_opt large_cap b0 data))))
      as (data' & -> & Hl & Hs & Hf).
    exists data'. split; [reflexivity|].
    rewrite Hl, Hs, Hf.
    destruct b0 as [x0|], b1 as [x1|], b2 as [x2|]; simpl;
      rewrite ?app_nil_r, <- ?app_assoc; repeat split.
Qed.

(** A sheet written out from three tables is read back as those tables:
    after three header rows of any content, rows that hold a band or
    nothing in each of the three blocks load into the three tables, band
    by band and in the order of the rows; the method returns [True] as
    soon as one band is there. *)
Theorem rating_sheet_round_trip h1 h2 h3 bands self :
  exists data,
    load_synthetic_ratings_data (Some (h1 :: h2 :: h3 :: map sheet_row bands)) self =
      (any_table data, set_synthetic_ratings_data data self) /\
    large_cap_table data = omap (fun b => b.1.1) bands /\
    small_cap_table data = omap (fun b => b.1.2) bands /\
    financial_table data = omap (fun b => b.2) bands.
Proof.
  unfold load_synthetic_ratings_data.
  change (skipn 3 (h1 :: h2 :: h3 :: map sheet_row bands))
    with (map sheet_row bands).
  destruct (load_rows_of_rows bands no_ratings) as (data & -> & Hl & Hs & Hf).
  exists data. repeat split; assumption.
Qed.

Lemma read_block_narrow row :
  (length row <= 10)%nat -> exists e, read_block row 10 = Raise e.
Proof.
  intros Hlen. unfold read_block, and_then, notna_at, at_position.
  assert (Hnone : nth_error row 10 = None) by (apply nth_error_None; lia).
  rewrite Hnone. now eexists.
Qed.

Lemma load_row_narrow row data :
  (length row <= 10)%nat -> exists data' e, load_row row data = (data', Some e).
Proof.
  intros Hlen. unfold load_row.
  destruct (read_block row 0); [|now eexists _, _].
  destruct (read_block row 5); [|now eexists _, _].
  destruct (read_block_narrow row Hlen) as [e ->]. now eexists _, _.
Qed.

Lemma load_rows_narrow sheet data :
  Exists (fun row => (length row <= 10)%nat) sheet ->
  exists data' e, load_rows sheet data = (data', Some e).
Proof.
  intros Hex. revert data. induction Hex as [row sheet Hrow | row sheet _ IH];
    intros data; cbn [load_rows].
  - destruct (load_row_narrow row data Hrow) as (data' & e & ->). now eexists _, _.
  - destruct (load_row row data) as [data' [e|]]; [now eexists _, _ | apply IH].
Qed.

(** A data row of at most ten cells makes the loader return [False]: the
    financial block is read in every row, and a missing column is a
    [KeyError], which only the outer handler catches.  The attribute is
    assigned all the same, with what was read before. *)
Theorem narrow_rating_sheet_fails sheet self :
  Exists (fun row => (length row <= 10)%nat) (skipn 3 sheet) ->
  exists data,
    load_synthetic_ratings_data (Some sheet) self =
      (false, set_synthetic_ratings_data data self).
Proof.
  intros Hex. unfold load_synthetic_ratings_data.
  destruct (load_rows_narrow (skipn 3 sheet) no_ratings Hex) as (data & e & ->).
  now exists data.
Qed.

End Sheets.

(** *** Tables without gaps *)

Lemma contiguous_covers table ratio first :
  contiguous table ->
  head table = Some first ->
  min_ratio first <= ratio ->
  (forall final, last table = Some final -> ratio <= max_ratio final) ->
  exists band, first_band ratio table = Some band.
Proof.
  revert first. induction table as [|band rest IH]; intros first Hc Hhead Hlo Hhi;
    [discriminate Hhead|].
  injection Hhead as ->. cbn [first_band].
  destruct (in_band ratio first) eqn:E; [now exists first|].
  apply in_band_outside in E. unfold within in E.
  destruct Hc as (Hint & Hnext & Hrest).
  destruct rest as [|next rest'].
  - exfalso. apply E. split; [exact Hlo|]. now apply Hhi.
  - apply (IH next Hrest eq_refl).
    + rewrite <- Hnext. apply Qnot_lt_le. intros Hlt. apply E.
      split; [exact Hlo | now apply Qlt_le_weak].
    + intros final Hfinal. apply Hhi. rewrite <- Hfinal. reflexivity.
Qed.

(** On a table of bands that follow one another without gaps, every
    coverage ratio between the lowest and the highest bound is assigned by
    a match: the fallback to the first entry is taken only below the first
    band or above the last. *)
Theorem fallback_only_outside_the_range self data ty ratio first final :
  synthetic_ratings_data self = Some data ->
  company_type self = Some ty ->
  interest_coverage_ratio self = Some ratio ->
  contiguous (table_of data ty) ->
  head (table_of data ty) = Some first ->
  last (table_of data ty) = Some final ->
  min_ratio first <= ratio -> ratio <= max_ratio final ->
  exists band,
    within ratio band /\
    assign_synthetic_rating self =
      (Return true, set_rating band self, Some (RatingAssignment band)).
Proof.
  intros Hd Ht Hr Hc Hfirst Hfinal Hlo Hhi.
  rewrite (assign_unfold self data ty ratio Hd Ht Hr).
  destruct (contiguous_covers (table_of data ty) ratio first Hc Hfirst Hlo)
    as [band Hband].
  - intros final' Hf. rewrite Hfinal in Hf. injection Hf as <-. exact Hhi.
  - rewrite Hband. exists band. split; [|reflexivity].
    destruct (first_band_found ratio _ band Hband) as (_ & _ & _ & Hin & _).
    exact Hin.
Qed.

(** *** From the rating to the cost of debt *)

Lemma first_band_in_table ratio table band :
  first_band ratio table = Some band -> In band table.
Proof.
  intros Hf. destruct (first_band_found ratio table band Hf)
    as (before & after & -> & _ & _).
  apply in_or_app. right. now left.
Qed.

(** The spread that [assign_synthetic_rating] stores is the one that
    [calculate_cost_of_debt] then uses: after the assignment on a table
    that is not empty, the cost of debt is
    [(risk_free_rate + spread) * (1 - tax_rate)] for the spread of a band of
    the table of the company type, whatever spread was stored before. *)
Theorem rating_feeds_cost_of_debt self data ty ratio rf tax :
  synthetic_ratings_data self = Some data ->
  company_type self = Some ty ->
  interest_coverage_ratio self = Some ratio ->
  table_of data ty <> [] ->
  risk_free_rate self = Some rf ->
  tax_rate self = Some tax ->
  exists band,
    In band (table_of data ty) /\
    fst (fst (assign_synthetic_rating self)) = Return true /\
    fst (calculate_cost_of_debt (snd (fst (assign_synthetic_rating self)))) =
      Some ((rf + band_spread band) * (1 - tax)).
Proof.
  intros Hd Ht Hr Hne Hrf Htax.
  rewrite (assign_unfold self data ty ratio Hd Ht Hr).
  destruct (first_band ratio (table_of data ty)) as [band|] eqn:E.
  - exists band. split; [now apply (first_band_in_table ratio)|].
    split; [reflexivity|]. unfold calculate_cost_of_debt. simpl.
    now rewrite Hrf, Htax.
  - destruct (table_of data ty) as [|worst rest]; [congruence|].
    exists worst. split; [now left|].
    split; [reflexivity|]. unfold calculate_cost_of_debt. simpl.
    now rewrite Hrf, Htax.
Qed.

(** With the tax rate taken by [get_tax_rate], the after-tax cost of debt
    is between 40% and 100% of the pre-tax cost, when that cost is not
    negative. *)
Theorem after_tax_cost_bounds `{Builtins} self stdin self' rest rf sp :
  DebtInputs.get_tax_rate self stdin = (Return true, self', rest) ->
  risk_free_rate self = Some rf ->
  spread self = Some sp ->
  0 <= rf + sp ->
  exists c,
    fst (calculate_cost_of_debt self') = Some c /\
    (rf + sp) * (2 / 5) <= c /\ c <= rf + sp.
Proof.
  unfold DebtInputs.get_tax_rate. intros Hrun Hrf Hsp Hpos.
  destruct (TextFacts.ask_outcome (accept_percent 0 60) stdin)
    as [(skipped & line & rest' & x & _ & _ & Hx & Hask) | [_ Hask]];
    rewrite Hask in Hrun; [|discriminate Hrun].
  injection Hrun as <- <-.
  apply TextFacts.accept_percent_range in Hx as [Hlo Hhi].
  unfold calculate_cost_of_debt. simpl. rewrite Hrf, Hsp.
  eexists. split; [reflexivity|].
  assert (Hx100 : x / 100 == x * (1 # 100)) by field.
  assert (H25 : 2 / 5 == 2 # 5) by reflexivity.
  rewrite Hx100, H25. split; nra.
Qed.

End RatingProps.

(** ** WACC: bounds, units and the main function *)

Module WACCProps.
Import Py PyText PyFacts TextFacts WACC WACCInputs WACCSpec.

Lemma weight_nonneg x t : 0 <= x -> 0 < t -> 0 <= x / t.
Proof. intros Hx Ht. apply Qle_shift_div_l; [exact Ht | lra]. Qed.

Lemma weight_le_one x t : x <= t -> 0 < t -> x / t <= 1.
Proof. intros Hx Ht. apply Qle_shift_div_r; [exact Ht | lra]. Qed.

(** With values that are not negative and a positive total (one of the two
    may be zero), the two weights stored are shares between 0 and 1, and
    with costs that are not negative the WACC is not negative.  A company
    without debt has an equity weight of 1 and a WACC equal to its cost of
    equity; one without equity has a debt weight of 1 and a WACC equal to
    its cost of debt. *)
Theorem wacc_weights_are_shares self ce cd ev dv :
  cost_of_equity self = Some ce ->
  cost_of_debt self = Some cd ->
  equity_value self = Some ev ->
  debt_value self = Some dv ->
  0 <= ev -> 0 <= dv -> 0 < ev + dv ->
  exists self' we wd,
    calculate_wacc self = (Return (Some (ce * we + cd * wd)), self') /\
    weight_equity self' = Some we /\ weight_debt self' = Some wd /\
    0 <= we /\ we <= 1 /\ 0 <= wd /\ wd <= 1 /\
    (0 <= ce -> 0 <= cd -> 0 <= ce * we + cd * wd) /\
    (dv == 0 -> we == 1 /\ wd == 0 /\ ce * we + cd * wd == ce) /\
    (ev == 0 -> we == 0 /\ wd == 1 /\ ce * we + cd * wd == cd).
Proof.
  intros Hce Hcd Hev Hdv Pev Pdv Pt.
  exists (weighted ce cd ev dv self), (ev / (ev + dv)), (dv / (ev + dv)).
  split; [apply calculate_wacc_divides; try assumption; lra|].
  do 2 (split; [reflexivity|]).
  pose proof (weight_nonneg ev (ev + dv) Pev Pt) as Hwe0.
  pose proof (weight_nonneg dv (ev + dv) Pdv Pt) as Hwd0.
  pose proof (weight_le_one ev (ev + dv) ltac:(lra) Pt) as Hwe1.
  pose proof (weight_le_one dv (ev + dv) ltac:(lra) Pt) as Hwd1.
  do 4 (split; [assumption|]).
  split; [intros Pce Pcd; nra|].
  split; intros Hz.
  - assert (E1 : ev / (ev + dv) == 1) by (rewrite Hz; field; lra).
    assert (E2 : dv / (ev + dv) == 0) by (rewrite Hz; field; lra).
    split; [exact E1|]. split; [exact E2|]. rewrite E1, E2. ring.
  - assert (E1 : ev / (ev + dv) == 0) by (rewrite Hz; field; lra).
    assert (E2 : dv / (ev + dv) == 1) by (rewrite Hz; field; lra).
    split; [exact E1|]. split; [exact E2|]. rewrite E1, E2. ring.
Qed.

Section Market.
Context `{Builtins}.

Lemma present_value_nonneg interest cod book_debt maturity :
  0 < cod -> 0 <= interest -> 0 <= book_debt ->
  0 <= present_value interest cod book_debt maturity.
Proof.
  intros Hc Hi Hb.
  assert (Hpow : 0 < pow (1 + cod) maturity) by (apply pow_pos; lra).
  assert (E : present_value interest cod book_debt maturity ==
              interest / (1 + cod) + book_debt / pow (1 + cod) maturity).
  { unfold present_value. field. repeat split; lra. }
  rewrite E.
  assert (0 <= interest / (1 + cod)) by (apply Qle_shift_div_l; lra).
  assert (0 <= book_debt / pow (1 + cod) maturity) by (apply Qle_shift_div_l; lra).
  lra.
Qed.

(** With a positive cost of debt the market value of debt is computed
    without an exception, and it is not negative when the interest and the
    book debt are not; without interest it is the discounted book debt
    alone. *)
Theorem market_value_of_debt_not_negative interest cod book_debt maturity :
  0 < cod ->
  exists v,
    market_value_of_debt interest cod book_debt maturity = Return v /\
    (0 <= interest -> 0 <= book_debt -> 0 <= v) /\
    (interest == 0 -> v == book_debt / pow (1 + cod) maturity).
Proof.
  intros Hc.
  rewrite (market_value_of_debt_value interest cod book_debt maturity) by lra.
  exists (present_value interest cod book_debt maturity).
  split; [reflexivity|]. split.
  - intros Hi Hb. now apply present_value_nonneg.
  - intros Hz. unfold present_value. rewrite Hz.
    assert (Hpow : 0 < pow (1 + cod) maturity) by (apply pow_pos; lra).
    field. repeat split; lra.
Qed.


End Market.

(** An empty answer selects the market values, an answer that is none of
    the accepted words is asked again, and the case of the answer does not
    matter. *)
Theorem valuation_method_answers line rest :
  (strip line = "" -> select_valuation_method (line :: rest) = (Return market, rest)) /\
  (accept_method (lower (strip line)) = None ->
   select_valuation_method (line :: rest) = select_valuation_method rest) /\
  select_valuation_method (upper line :: rest) =
    select_valuation_method (line :: rest).
Proof.
  unfold select_valuation_method. split; [|split].
  - intros He. cbn [ask]. now rewrite He.
  - intros Hno. cbn [ask]. now rewrite Hno.
  - cbn [ask]. now rewrite strip_upper, lower_upper.
Qed.

(** *** [main] *)

Section Main.
Context `{Builtins}.

Lemma get_cost_inputs_taken self e_line d_line rest ep dp :
  accept_percent 0 50 (strip e_line) = Some ep ->
  accept_percent 0 30 (strip d_line) = Some dp ->
  get_cost_inputs self (e_line :: d_line :: rest) =
    (Return true, set_cost_of_debt (dp / 100) (set_cost_of_equity (ep / 100) self),
     rest).
Proof.
  intros He Hd. unfold get_cost_inputs.
  now rewrite (ask_taken _ _ _ _ He), (ask_taken _ _ _ _ Hd).
Qed.

Lemma percent_as_fraction lo hi s x :
  accept_percent lo hi s = Some x ->
  lo * (1 # 100) <= x / 100 /\ x / 100 <= hi * (1 # 100).
Proof.
  intros Hx. apply accept_percent_range in Hx as [Hlo Hhi].
  assert (E : x / 100 == x * (1 # 100)) by field. rewrite E. lra.
Qed.

(** [main] on book values: with the costs, the word for book values and
    two book values answered in turn, the WACC is the cost of equity and the
    cost of debt entered, as fractions, weighted by the two values in units
    (millions times 1,000,000); it is stored, it is not negative, and all
    the answers are consumed, for values that are not negative and not both
    zero.  Two values that add up to zero make the run end in a
    [ZeroDivisionError]. *)
Theorem main_on_book_values market_cap e_line d_line m_line eq_line db_line rest
    ep dp ev dv :
  accept_percent 0 50 (strip e_line) = Some ep ->
  accept_percent 0 30 (strip d_line) = Some dp ->
  accept_method (lower (strip m_line)) = Some book ->
  accept_float (strip eq_line) = Some ev ->
  accept_float (strip db_line) = Some dv ->
  let stdin := e_line :: d_line :: m_line :: eq_line :: db_line :: rest in
  let equity := ev * 1000000 in
  let debt := dv * 1000000 in
  (ev + dv == 0 ->
   fst (fst (main_steps market_cap stdin)) = Raise ZeroDivisionError) /\
  (0 <= ev -> 0 <= dv -> 0 < ev + dv ->
   exists w calc,
     main_steps market_cap stdin = (Return (Some w), calc, rest) /\
     wacc calc = Some w /\
     w = ep / 100 * (equity / (equity + debt)) +
         dp / 100 * (debt / (equity + debt)) /\
     0 <= w).
Proof.
  intros He Hd Hm Heq Hdb stdin equity debt. subst stdin equity debt.
  unfold main_steps.
  rewrite (get_cost_inputs_taken init e_line d_line _ ep dp He Hd).
  unfold select_valuation_method.
  rewrite (ask_taken (fun s => accept_method (lower s)) m_line _ book Hm).
  unfold get_book_values.
  rewrite (ask_taken _ _ _ _ Heq), (ask_taken _ _ _ _ Hdb).
  set (calc := set_values _ _ _).
  split.
  - intros Hz.
    assert (Hz' : ev * 1000000 + dv * 1000000 == 0) by lra.
    now rewrite (calculate_wacc_zero_total calc (ep / 100) (dp / 100)
                   (ev * 1000000) (dv * 1000000) eq_refl eq_refl eq_refl eq_refl Hz').
  - intros Pev Pdv Pt.
    assert (Hnz : ~ ev * 1000000 + dv * 1000000 == 0) by lra.
    rewrite (calculate_wacc_divides calc (ep / 100) (dp / 100)
               (ev * 1000000) (dv * 1000000) eq_refl eq_refl eq_refl eq_refl Hnz).
    eexists _, _. split; [reflexivity|]. split; [reflexivity|].
    split; [reflexivity|].
    destruct (percent_as_fraction _ _ _ _ He) as [He0 _].
    destruct (percent_as_fraction _ _ _ _ Hd) as [Hd0 _].
    pose proof (weight_nonneg (ev * 1000000) (ev * 1000000 + dv * 1000000)
                  ltac:(lra) ltac:(lra)) as Hwe.
    pose proof (weight_nonneg (dv * 1000000) (ev * 1000000 + dv * 1000000)
                  ltac:(lra) ltac:(lra)) as Hwd.
    nra.
Qed.

(** [main] on market values: a cost of debt of 0%, which the prompt takes,
    makes the market value of debt divide by zero, so that the run ends in
    a [ZeroDivisionError].  With a positive cost of debt, a positive market
    cap and a debt and an interest that are not negative, the market value
    of debt is computed and is not negative, and the WACC is the two costs
    entered, as fractions, weighted by the market cap and that value; it is
    not negative. *)
Theorem main_on_market_values market_cap e_line d_line m_line t_line b_line
    mat_line i_line rest ep dp cap bd mv iv :
  accept_percent 0 50 (strip e_line) = Some ep ->
  accept_percent 0 30 (strip d_line) = Some dp ->
  accept_method (lower (strip m_line)) = Some market ->
  strip t_line <> "" ->
  market_cap (upper (strip t_line)) = Some cap ->
  accept_float (strip b_line) = Some bd ->
  accept_float (strip mat_line) = Some mv ->
  0 < mv ->
  accept_float (strip i_line) = Some iv ->
  let stdin :=
    e_line :: d_line :: m_line :: t_line :: b_line :: mat_line :: i_line :: rest in
  (dp == 0 -> fst (fst (main_steps market_cap stdin)) = Raise ZeroDivisionError) /\
  (0 < dp -> 0 < cap -> 0 <= bd -> 0 <= iv ->
   exists v w,
     market_value_of_debt (iv * 1000000) (dp / 100) (bd * 1000000) mv = Return v /\
     0 <= v /\
     fst (fst (main_steps market_cap stdin)) = Return (Some w) /\
     w = ep / 100 * (cap / (cap + v)) + dp / 100 * (v / (cap + v)) /\
     0 <= w).
Proof.
  intros He Hd Hm Hne Hcap Hb Hmat Hpos Hi stdin. subst stdin. unfold main_steps.
  rewrite (get_cost_inputs_taken init e_line d_line _ ep dp He Hd).
  unfold select_valuation_method.
  rewrite (ask_taken (fun s => accept_method (lower s)) m_line _ market Hm).
  rewrite (get_market_values_run market_cap
             (set_cost_of_debt (dp / 100) (set_cost_of_equity (ep / 100) init))
             t_line b_line mat_line i_line rest
             cap bd mv iv (dp / 100) Hne Hcap Hb Hmat Hpos Hi eq_refl).
  cbv zeta. split.
  - intros Hz.
    rewrite market_value_of_debt_zero_cost; [reflexivity|].
    rewrite Hz. reflexivity.
  - intros Pdp Pcap Pbd Piv.
    assert (Hcod : 0 < dp / 100) by (apply Qlt_shift_div_l; [reflexivity | lra]).
    rewrite market_value_of_debt_value by lra.
    pose proof (present_value_nonneg (iv * 1000000) (dp / 100) (bd * 1000000) mv
                  Hcod ltac:(lra) ltac:(lra)) as Hpv.
    set (v := present_value _ _ _ _) in *.
    set (calc := set_market_values v _).
    assert (Hnz : ~ cap + v == 0) by lra.
    rewrite (calculate_wacc_divides calc (ep / 100) (dp / 100) cap v
               eq_refl eq_refl eq_refl eq_refl Hnz).
    exists v. eexists. split; [reflexivity|]. split; [exact Hpv|].
    split; [reflexivity|]. split; [reflexivity|].
    destruct (percent_as_fraction _ _ _ _ He) as [He0 _].
    pose proof (weight_nonneg cap (cap + v) ltac:(lra) ltac:(lra)) as Hwe.
    pose proof (weight_nonneg v (cap + v) Hpv ltac:(lra)) as Hwd.
    nra.
Qed.

End Main.

End WACCProps.

(** ** Further runs on concrete inputs *)

(** *** The country tables *)

Module TableRuns.
Import Py PyText PyFacts Runnable CostOfEquity Samples MoreSamples TableProps.

Example first_accepted_column_is_read :
  find_column two_italy_sheet possible_yield_columns = Some "Yield 10y".
Proof. reflexivity. Qed.

Lemma loaded_keys_are_normal_witness : upper "ITALY" = "ITALY" /\ strip "ITALY" = "ITALY".
Proof.
  eapply (loaded_keys_are_normal (H := builtins) (Some two_italy_sheet) init _ "ITALY").
  - left. split; [reflexivity|]. vm_compute. reflexivity.
  - vm_compute. eexists. reflexivity.
Defined.

Lemma loaded_yields_are_fractions_witness : 0 <= 4.2 / 100 /\ 4.2 / 100 <= 1.
Proof.
  apply (loaded_yields_are_fractions (H := builtins) two_italy_sheet init
           (fold_left (bond_row two_italy_sheet "Yield 10y")
              (rows two_italy_sheet) ∅))
    with (k := "ITALY").
  - intros column row v Hcol Hrow.
    destruct Hrow as [<- | [<- | []]];
      destruct Hcol as [<- | [<- | [<- | [<- | []]]]];
      vm_compute; intros [= <-]; split; discriminate.
  - reflexivity.
  - reflexivity.
  - vm_compute. reflexivity.
Defined.

Lemma last_row_wins_witness :
  exists yields premiums,
    load_bond_yield_data (Some two_italy_sheet) init =
      (true, {| bond_yield_data := Some yields; erp_data := None |}) /\
    yields !! "ITALY" = Some (4.2 / 100) /\
    load_erp_data (Some two_italy_sheet) init =
      (true, {| bond_yield_data := None; erp_data := Some premiums |}) /\
    premiums !! "ITALY" = Some 4.2.
Proof.
  exact (last_row_wins (H := builtins) italy_columns italy_rows_before
           italy_last_row " italy " 4.2 init "Yield 10y" "ERP"
           eq_refl eq_refl eq_refl eq_refl eq_refl).
Defined.

End TableRuns.

(** *** Country lookups and CAPM *)

Module CapmRuns.
Import Py PyText PyFacts Runnable CostOfEquity Capm Samples MoreSamples CapmProps.

Example us_is_no_key_of_the_alternatives :
  get_bond_yield_from_excel
    {| bond_yield_data := Some {[ "USA" := 0.04 ]}; erp_data := None |} "us" = None.
Proof. reflexivity. Qed.

Example dot_L_is_read_as_london :
  detect_country_from_index "abc.lx" = Some "United Kingdom".
Proof. reflexivity. Qed.

Lemma bond_yield_lookup_witness :
  get_bond_yield_from_excel american_tables "Usa" = Some 0.04 /\
  get_bond_yield_from_excel american_tables "US" = None.
Proof.
  destruct (bond_yield_lookup american_tables {[ "UNITED STATES" := 0.04 ]} "Usa"
              eq_refl) as (Hfirst & _).
  destruct (bond_yield_lookup american_tables {[ "UNITED STATES" := 0.04 ]} "US"
              eq_refl) as (_ & _ & _ & Hown).
  split.
  - rewrite Hfirst. reflexivity.
  - rewrite Hown; reflexivity.
Defined.

Lemma usa_resolves_by_alias_witness :
  get_bond_yield_from_excel american_tables "usa" = Some 0.04.
Proof.
  apply (usa_resolves_by_alias american_tables {[ "UNITED STATES" := 0.04 ]});
    reflexivity.
Defined.

Lemma equity_risk_premium_from_table_witness :
  detected_country (snd (get_equity_risk_premium american_tables no_rates "^gspc")) =
    Some "United States" /\
  equity_risk_premium (snd (get_equity_risk_premium american_tables no_rates "^gspc")) =
    Some 0.0433 /\
  equity_risk_premium (snd (get_equity_risk_premium american_tables four_percent "^n225")) =
    None.
Proof.
  destruct (equity_risk_premium_from_table american_tables no_rates "^gspc"
              {[ "USA" := 0.0433 ]} eq_refl) as (Hdet & Hsome & _).
  destruct (equity_risk_premium_from_table american_tables four_percent "^n225"
              {[ "USA" := 0.0433 ]} eq_refl) as (_ & _ & Hnone).
  split; [rewrite Hdet; reflexivity|]. split.
  - apply (Hsome 0.0433). reflexivity.
  - rewrite Hnone; reflexivity.
Defined.

Example interrupt_returns_none_and_stores_nothing :
  get_manual_equity_risk_premium four_percent
    [Answer "30"; Answer "abc"; Interrupt; Answer "5"] =
    (Return None, four_percent, [Answer "5"]).
Proof. reflexivity. Qed.

Example premium_is_taken_after_the_refused_answers :
  get_manual_equity_risk_premium (H := builtins) four_percent
    [Answer ""; Answer "30"; Answer " 5 "; Interrupt] =
    (Return (Some (5 / 100)), set_equity_risk_premium (5 / 100) four_percent,
     [Interrupt]).
Proof. reflexivity. Qed.

Lemma capm_ordering_witness :
  calculate_cost_of_equity (Some 1.2) four_percent (Some 0.05) =
    Some (0.04 + 1.2 * 0.05) /\
  0.04 + (-0.5) * 0.05 <= 0.04 + 1.2 * 0.05 /\
  0.04 + (-0.5) * 0.05 < 0.04.
Proof.
  destruct (capm_ordering four_percent 0.04 eq_refl) as (Hv & _ & Hle & Hlt).
  split; [apply Hv|]. split.
  - apply (Hle (-0.5) 1.2 0.05); [discriminate | discriminate | apply Hv | apply Hv].
  - apply (Hlt (-0.5) 0.05); [reflexivity | reflexivity | apply Hv].
Defined.

Lemma looked_up_premium_is_used_witness :
  calculate_cost_of_equity (Some 1.2)
    (snd (get_equity_risk_premium american_tables four_percent "^GSPC")) None =
    Some (0.04 + 1.2 * 0.0433).
Proof.
  apply (looked_up_premium_is_used american_tables four_percent "^GSPC");
    reflexivity.
Defined.

End CapmRuns.

(** *** Cost of debt inputs and ratings *)

Module DebtRuns.
Import Py PyText PyFacts Runnable CostOfDebt DebtInputs RatingSheets Samples
  MoreSamples RatingSpec DebtProps RatingProps.

Example bank_is_financial_whatever_its_size :
  get_company_info regional_bank_feed "rbk" CostOfDebt.init no_company =
    (true, set_company_type financial CostOfDebt.init,
     {| ticker := Some "RBK";
        company_info := Some (Data regional_bank);
        market_cap := Some 900000000000;
        is_financial_firm := Some true |}).
Proof. reflexivity. Qed.

Example failed_lookup_keeps_the_new_ticker :
  get_company_info regional_bank_feed "xyz" (company_type_known large_cap)
    {| ticker := Some "RBK"; company_info := Some (Data regional_bank);
       market_cap := Some 900000000000; is_financial_firm := Some true |} =
    (false, company_type_known large_cap,
     {| ticker := Some "XYZ"; company_info := Some (Data regional_bank);
        market_cap := Some 900000000000; is_financial_firm := Some true |}).
Proof. reflexivity. Qed.

Example missing_market_cap_is_stored :
  get_company_info regional_bank_feed "nocap" (company_type_known large_cap)
    {| ticker := Some "RBK"; company_info := Some (Data regional_bank);
       market_cap := Some 900000000000; is_financial_firm := Some true |} =
    (false, company_type_known large_cap,
     {| ticker := Some "NOCAP"; company_info := Some (Data unlisted_firm);
        market_cap := None; is_financial_firm := Some true |}).
Proof. reflexivity. Qed.

Example five_billion_is_small_cap :
  company_type_of false 5000000000 = small_cap.
Proof. reflexivity. Qed.

Example tax_rate_above_sixty_is_asked_again :
  get_tax_rate CostOfDebt.init ["61"; "-1"; "60"] =
    (Return true, set_tax_rate (60 / 100) CostOfDebt.init, []).
Proof. reflexivity. Qed.

Lemma loaded_country_can_be_selected_witness :
  select_risk_free_rate
    (snd (DebtTables.load_bond_yield_data (Some two_italy_sheet) None))
    CostOfDebt.init ["  ITALY "; "x"] =
    (Return true, set_risk_free_rate (4.2 / 100) CostOfDebt.init, ["x"]).
Proof.
  apply (loaded_country_can_be_selected (H := builtins) italy_columns
           italy_rows_before italy_last_row " italy " 4.2 None CostOfDebt.init
           "  ITALY " ["x"] "Yield 10y");
    try reflexivity.
  discriminate.
Defined.

Lemma narrow_rating_sheet_fails_witness :
  exists data,
    load_synthetic_ratings_data (Some four_cell_sheet) CostOfDebt.init =
      (false, set_synthetic_ratings_data data CostOfDebt.init).
Proof.
  apply (narrow_rating_sheet_fails (H := builtins)).
  apply Exists_cons_hd. simpl. lia.
Defined.

Lemma three_bands_contiguous : contiguous three_bands.
Proof.
  simpl. repeat split; try reflexivity; discriminate.
Defined.

Lemma fallback_only_outside_the_range_witness :
  exists band,
    within 2 band /\
    assign_synthetic_rating (company large_cap 2) =
      (Return true, set_rating band (company large_cap 2),
       Some (RatingAssignment band)).
Proof.
  apply (fallback_only_outside_the_range (company large_cap 2) large_cap_ratings
           large_cap 2 band_D
           {| min_ratio := 3; max_ratio := 999; band_rating := "A";
              band_spread := 0.01 |});
    try reflexivity; try discriminate.
  exact three_bands_contiguous.
Defined.

Lemma rating_feeds_cost_of_debt_witness :
  exists band,
    In band three_bands /\
    fst (fst (assign_synthetic_rating (rated_borrower 2 (Some 0.25)))) = Return true /\
    fst (calculate_cost_of_debt
           (snd (fst (assign_synthetic_rating (rated_borrower 2 (Some 0.25)))))) =
      Some ((0.04 + band_spread band) * (1 - 0.25)).
Proof.
  apply (rating_feeds_cost_of_debt (rated_borrower 2 (Some 0.25))
           large_cap_ratings large_cap 2 0.04 0.25);
    try reflexivity.
  discriminate.
Defined.

Lemma after_tax_cost_bounds_witness :
  exists c,
    fst (calculate_cost_of_debt (set_tax_rate (25 / 100) (rated_borrower 2 None))) =
      Some c /\
    (0.04 + 0.5) * (2 / 5) <= c /\ c <= 0.04 + 0.5.
Proof.
  apply (after_tax_cost_bounds (H := builtins) (rated_borrower 2 None) ["25"]
           (set_tax_rate (25 / 100) (rated_borrower 2 None)) [] 0.04 0.5);
    try reflexivity.
  discriminate.
Defined.

End DebtRuns.

(** *** WACC *)

Module WACCMoreRuns.
Import Py PyText PyFacts Runnable WACC WACCInputs Samples WACCSpec WACCProps.

Example empty_answer_selects_market :
  select_valuation_method ["  "; "book"] = (Return market, ["book"]).
Proof. reflexivity. Qed.

Lemma wacc_weights_are_shares_witness :
  exists self' we wd,
    calculate_wacc (capital (Some 0.10) (Some 0.05) (Some 3) (Some 0)) =
      (Return (Some (0.10 * we + 0.05 * wd)), self') /\
    weight_equity self' = Some we /\ weight_debt self' = Some wd /\
    we == 1 /\ wd == 0 /\ 0.10 * we + 0.05 * wd == 0.10.
Proof.
  destruct (wacc_weights_are_shares
              (capital (Some 0.10) (Some 0.05) (Some 3) (Some 0))
              0.10 0.05 3 0 eq_refl eq_refl eq_refl eq_refl)
    as (self' & we & wd & Hrun & Hwe & Hwd & _ & _ & _ & _ & _ & Hequity & _);
    try discriminate; [reflexivity|].
  exists self', we, wd. split; [exact Hrun|]. split; [exact Hwe|].
  split; [exact Hwd|]. apply Hequity. reflexivity.
Defined.

Lemma market_value_of_debt_not_negative_witness :
  exists v, market_value_of_debt 500 0.05 15000 8 = Return v /\ 0 <= v.
Proof.
  destruct (market_value_of_debt_not_negative (H := builtins) 500 0.05 15000 8)
    as (v & Hv & Hpos & _); [reflexivity|].
  exists v. split; [exact Hv|]. apply Hpos; discriminate.
Defined.

Example zero_interest_leaves_the_discounted_debt :
  exists v, market_value_of_debt 0 1 1600 2 = Return v /\ v == 400.
Proof. eexists. split; reflexivity. Qed.

Lemma main_on_book_values_witness :
  fst (fst (main_steps one_ticker ["12.5"; "4.5"; "Book"; "250"; "-250"])) =
    Raise ZeroDivisionError /\
  exists w calc,
    main_steps one_ticker ["12.5"; "4.5"; "Book"; "25000"; "15000"] =
      (Return (Some w), calc, []) /\
    wacc calc = Some w /\
    w == 0.095 /\ 0 <= w.
Proof.
  split.
  - apply (main_on_book_values (H := builtins) one_ticker
             "12.5" "4.5" "Book" "250" "-250" [] 12.5 4.5 250 (-250));
      reflexivity.
  - destruct (main_on_book_values (H := builtins) one_ticker
                "12.5" "4.5" "Book" "25000" "15000" [] 12.5 4.5 25000 15000
                eq_refl eq_refl eq_refl eq_refl eq_refl)
      as (_ & Hrun).
    destruct Hrun as (w & calc & Hrun & Hw & Hval & Hpos);
      try discriminate; [reflexivity|].
    exists w, calc. split; [exact Hrun|]. split; [exact Hw|].
    split; [rewrite Hval; reflexivity | exact Hpos].
Defined.

Lemma main_on_market_values_witness :
  fst (fst (main_steps one_ticker ["12.5"; "0"; ""; "acme"; "15000"; "8"; "500"])) =
    Raise ZeroDivisionError /\
  exists w,
    fst (fst (main_steps one_ticker ["12.5"; "4.5"; "m"; "acme"; "15000"; "8"; "500"])) =
      Return (Some w) /\
    0 <= w.
Proof.
  split.
  - apply (main_on_market_values (H := builtins) one_ticker
             "12.5" "0" "" "acme" "15000" "8" "500" [] 12.5 0 30000000000 15000 8 500);
      try reflexivity.
    discriminate.
  - destruct (main_on_market_values (H := builtins) one_ticker
                "12.5" "4.5" "m" "acme" "15000" "8" "500" [] 12.5 4.5 30000000000
                15000 8 500)
      as (_ & Hrun); try reflexivity; [discriminate|].
    destruct Hrun as (v & w & _ & _ & Hw & _ & Hpos);
      try reflexivity; try discriminate.
    exists w. split; [exact Hw | exact Hpos].
Defined.

End WACCMoreRuns.
